(** * smartmcp: a shallow embedding of the gateway core

    Sources: [src/smartmcp/upstream.py] (name codec, [UpstreamManager]),
    [src/smartmcp/embedding.py] ([EmbeddingIndex]; the text of a tool,
    [tool_to_text], only feeds the embedding model and is folded into it),
    [src/smartmcp/server.py] ([handle_list_tools], [handle_call_tool]).

    Python exceptions are modelled by the [Result] type below; the effects
    the handlers have on the world (logging, the downstream notification)
    are recorded in an explicit trace of [Event]s. External collaborators
    (MCP sessions, the embedding model, FAISS) are section variables, so
    every theorem holds for all of their behaviours. *)

From Stdlib Require Import String Ascii List ZArith Lia Bool Sorted.
Import ListNotations.
Open Scope string_scope.
#[local] Set Warnings "-register-all".

(* ------------------------------------------------------------------ *)
(** ** Python values and exceptions *)

(** JSON-like values: tool input schemas and call arguments. *)
Inductive json : Type :=
| JNull
| JBool (b : bool)
| JNum (z : Z)
| JStr (s : string)
| JArr (xs : list json)
| JObj (kvs : list (string * json)).

(** Python truthiness of such a value ([if not query]). *)
Definition truthy (v : json) : bool :=
  match v with
  | JNull => false
  | JBool b => b
  | JNum z => negb (Z.eqb z 0)
  | JStr s => negb (String.eqb s "")
  | JArr xs => match xs with [] => false | _ => true end
  | JObj kvs => match kvs with [] => false | _ => true end
  end.

(** The exceptions raised on the paths we model. [Exception] stands for
    any exception coming from an external collaborator (transport, MCP
    session, embedding model); [IndexNotBuilt] is the spec's name for
    searching an index before [build_index]. *)
Inductive Exc : Type :=
| ValueError (msg : string)
| RuntimeError (msg : string)
| IndexNotBuilt
| Exception (msg : string).

Definition exc_str (e : Exc) : string :=
  match e with
  | ValueError m | RuntimeError m | Exception m => m
  | IndexNotBuilt => "index not built"
  end.

(** A computation that returns a value or raises. *)
Inductive Result (A : Type) : Type :=
| Ok (a : A)
| Raise (e : Exc).
Arguments Ok {A} a.
Arguments Raise {A} e.

Definition is_raise {A} (r : Result A) : bool :=
  match r with Ok _ => false | Raise _ => true end.

(* ------------------------------------------------------------------ *)
(** ** Python dicts with insertion order, as association lists *)

Fixpoint dict_get {V} (d : list (string * V)) (k : string) : option V :=
  match d with
  | [] => None
  | (k', v) :: d' => if String.eqb k k' then Some v else dict_get d' k
  end.

(** [d[k] = v]: an existing key keeps its position, a new one is appended. *)
Fixpoint dict_set {V} (d : list (string * V)) (k : string) (v : V)
  : list (string * V) :=
  match d with
  | [] => [(k, v)]
  | (k', v') :: d' =>
      if String.eqb k k' then (k, v) :: d' else (k', v') :: dict_set d' k v
  end.

(** [d.get(k, default)] *)
Definition dict_get_default {V} (d : list (string * V)) (k : string) (dflt : V) : V :=
  match dict_get d k with Some v => v | None => dflt end.

(* ------------------------------------------------------------------ *)
(** ** Strings: the Python primitives the codec uses *)

(** [s.startswith(p)], returning the rest of [s]. *)
Fixpoint strip_prefix (p s : string) : option string :=
  match p with
  | EmptyString => Some s
  | String a p' =>
      match s with
      | EmptyString => None
      | String b s' => if Ascii.eqb a b then strip_prefix p' s' else None
      end
  end.

(** [s.split(sep, 1)] for a non-empty [sep]: cut at the first occurrence. *)
Fixpoint split_first (sep s : string) {struct s} : option (string * string) :=
  match strip_prefix sep s with
  | Some rest => Some (EmptyString, rest)
  | None =>
      match s with
      | EmptyString => None
      | String c s' =>
          match split_first sep s' with
          | Some (a, b) => Some (String c a, b)
          | None => None
          end
      end
  end.

Definition py_split_max1 (sep s : string) : list string :=
  match split_first sep s with
  | Some (a, b) => [a; b]
  | None => [s]
  end.

(** [sub in s] *)
Fixpoint str_contains (sub s : string) : bool :=
  match strip_prefix sub s with
  | Some _ => true
  | None =>
      match s with
      | EmptyString => false
      | String _ s' => str_contains sub s'
      end
  end.

Fixpoint last_char (s : string) : option ascii :=
  match s with
  | EmptyString => None
  | String c EmptyString => Some c
  | String _ s' => last_char s'
  end.

(** [s.endswith("_")] *)
Definition ends_with_underscore (s : string) : bool :=
  match last_char s with
  | Some c => Ascii.eqb c "_"%char
  | None => false
  end.

(* ------------------------------------------------------------------ *)
(** ** upstream.py: the name codec *)

Definition SEPARATOR : string := "__".

Definition prefix_tool_name (server_name tool_name : string) : string :=
  server_name ++ SEPARATOR ++ tool_name.

Definition parse_prefixed_name (prefixed : string) : Result (string * string) :=
  match py_split_max1 SEPARATOR prefixed with
  | [a; b] => Ok (a, b)
  | _ => Raise (ValueError ("Invalid prefixed tool name: " ++ prefixed))
  end.

(* ------------------------------------------------------------------ *)
(** ** MCP tool descriptors ([mcp.types.Tool]) and call results *)

Record Tool : Type := mkTool {
  tool_name : string;
  tool_description : option string;
  tool_inputSchema : list (string * json)
}.

(** [types.TextContent | types.ImageContent | types.EmbeddedResource] *)
Inductive Content : Type :=
| TextContent (text : string)
| ImageContent (data mimeType : string)
| EmbeddedResource (uri : string).

(* ------------------------------------------------------------------ *)
(** ** embedding.py: [EmbeddingIndex] *)

Record EmbeddingIndex (Vec : Type) : Type := mkEmbeddingIndex {
  _index : option (list Vec);   (** [faiss.IndexFlatIP | None]: the stored vectors *)
  _tools : list Tool
}.
Arguments mkEmbeddingIndex {Vec} _ _.
Arguments _index {Vec} _.
Arguments _tools {Vec} _.

(** [insert_desc] places a scored position after every entry with a score
    at least as high, so folding it from the left ranks by descending
    score and keeps ties in position order. *)
Fixpoint insert_desc (x : nat * Z) (l : list (nat * Z)) : list (nat * Z) :=
  match l with
  | [] => [x]
  | y :: l' => if (snd x <=? snd y)%Z then y :: insert_desc x l' else x :: l
  end.

Definition rank_desc (l : list (nat * Z)) : list (nat * Z) :=
  fold_left (fun acc x => insert_desc x acc) l [].

Section Indexer.
Context {Vec : Type}.
(** [normalize_L2(model.encode(text))] for a query text. *)
Variable embed_text : string -> Vec.
(** [normalize_L2(model.encode(tool_to_text(tool)))] for a catalog entry. *)
Variable embed_tool : Tool -> Vec.
(** Inner product of two stored vectors: the similarity score. Scores
    are float32 in the code; only their order matters here, and any
    finite set of non-NaN floats embeds into [Z] preserving it. *)
Variable inner : Vec -> Vec -> Z.

(** [EmbeddingIndex.__init__]: no index, no tools. *)
Definition EmbeddingIndex_init : EmbeddingIndex Vec := mkEmbeddingIndex None [].

(** [EmbeddingIndex.build_index]: replaces any previous index. Only the
    index a successful build leaves is modelled: the exceptions it can
    raise (from [tool_to_text] on a non-dict ["properties"], and from
    [embeddings.shape[1]] on an empty catalog) are not. *)
Definition build_index (self : EmbeddingIndex Vec) (tools : list Tool)
  : EmbeddingIndex Vec :=
  mkEmbeddingIndex (Some (map embed_tool tools)) tools.

(** Modelled from the spec: the index primitive [query(index, vector, k)]
    of section 6 (FAISS [IndexFlatIP.search], external): the [k] nearest
    stored vectors by inner product as (position, score) pairs, highest
    score first. *)
Definition index_query (vecs : list Vec) (q : Vec) (k : nat) : list (nat * Z) :=
  firstn k (rank_desc (combine (seq 0 (length vecs)) (map (inner q) vecs))).

(** Modelled from the spec: [EmbeddingIndex.search] (section 4.3), which
    server.py calls but src/smartmcp/embedding.py does not contain. It
    fails with [IndexNotBuilt] before [build_index], clamps [k] to at least
    1 and at most the catalog size, embeds the query the same way and zips
    the hits back to their tools with the raw score. *)
Definition search (self : EmbeddingIndex Vec) (query : string) (k : Z)
  : Result (list (Tool * Z)) :=
  match _index self with
  | None => Raise IndexNotBuilt
  | Some vecs =>
      let k' := Z.max 1 (Z.min k (Z.of_nat (length (_tools self)))) in
      let hits := index_query vecs (embed_text query) (Z.to_nat k') in
      Ok (flat_map (fun '(i, s) =>
                      match nth_error (_tools self) i with
                      | Some t => [(t, s)]
                      | None => []
                      end) hits)
  end.
End Indexer.

(* ------------------------------------------------------------------ *)
(** ** config.py *)

Record ServerConfig : Type := mkServerConfig {
  command : string;
  args : list string;
  env : list (string * string)
}.

Record SmartMCPConfig : Type := mkSmartMCPConfig {
  servers : list (string * ServerConfig);   (** a dict: insertion order kept *)
  top_k : Z;
  embedding_model : string
}.

(* ------------------------------------------------------------------ *)
(** ** Effects: logging and downstream notifications *)

Inductive Level : Type := INFO | WARNING | ERROR.

Inductive LogArg : Type :=
| AStr (s : string)
| ANat (n : nat)
| AJson (v : json)
| AExc (e : Exc).

Inductive Event : Type :=
| Log (lvl : Level) (fmt : string) (args : list LogArg)
| ToolListChanged.   (** a call of [session.send_tool_list_changed()] *)

Definition is_notification (e : Event) : bool :=
  match e with ToolListChanged => true | Log _ _ _ => false end.

(* ------------------------------------------------------------------ *)
(** ** Text helpers for the results returned to the client *)

Fixpoint nat_to_string_aux (fuel n : nat) (acc : string) : string :=
  match fuel with
  | O => acc
  | S f =>
      let acc' := String (ascii_of_nat (48 + n mod 10)) acc in
      if Nat.ltb n 10 then acc' else nat_to_string_aux f (n / 10) acc'
  end.

(** [str(n)] for a natural number. *)
Definition nat_to_string (n : nat) : string := nat_to_string_aux (S n) n "".

Definition NL : string := String (ascii_of_nat 10) EmptyString.

(** [sep.join(parts)] *)
Fixpoint str_join (sep : string) (parts : list string) : string :=
  match parts with
  | [] => ""
  | [p] => p
  | p :: ps => p ++ sep ++ str_join sep ps
  end.

(** [str(x)] of an [Optional[str]]. *)
Definition opt_str (o : option string) : string :=
  match o with Some s => s | None => "None" end.

(* ------------------------------------------------------------------ *)
(** ** server.py: the built-in discovery tool *)

Definition SEARCH_TOOLS_NAME : string := "search_tools".

Definition SEARCH_TOOLS_SCHEMA : Tool :=
  mkTool SEARCH_TOOLS_NAME
    (Some ("Search for relevant tools across all connected MCP servers. "
           ++ "Describe what you want to do and this will find the best matching tools."))
    [("type", JStr "object");
     ("required", JArr [JStr "query"]);
     ("properties",
       JObj [("query", JObj [("type", JStr "string");
                             ("description", JStr "Natural language description of what you want to do")]);
             ("top_k", JObj [("type", JStr "integer");
                             ("description", JStr "Number of tools to return (default: 3)")])])].

(* ------------------------------------------------------------------ *)
(** ** upstream.py: [UpstreamManager] and server.py: the handlers *)

(** The [AsyncExitStack] of the manager only matters for [close], which no
    property below is about; the manager is its [sessions] dict. *)
Record UpstreamManager (Session : Type) : Type := mkUpstreamManager {
  sessions : list (string * Session)
}.
Arguments mkUpstreamManager {Session} _.
Arguments sessions {Session} _.

Record SmartMCPState (Session Index : Type) : Type := mkSmartMCPState {
  upstream : UpstreamManager Session;
  index : Index;
  all_tools : list (string * Tool);
  config : SmartMCPConfig;
  active_tools : list Tool
}.
Arguments mkSmartMCPState {Session Index} _ _ _ _ _.
Arguments upstream {Session Index} _.
Arguments index {Session Index} _.
Arguments all_tools {Session Index} _.
Arguments config {Session Index} _.
Arguments active_tools {Session Index} _.

(** [state.active_tools = ...] *)
Definition set_active_tools {Session Index} (st : SmartMCPState Session Index)
  (ts : list Tool) : SmartMCPState Session Index :=
  mkSmartMCPState (upstream st) (index st) (all_tools st) (config st) ts.

Section Gateway.
Context {Session DownSession Index Score : Type}.

(** Spawning a server and handshaking with it: [stdio_client(params)],
    [ClientSession(...)] and [session.initialize()], any of which may
    raise. *)
Variable connect : string -> ServerConfig -> Result Session.
(** [await session.list_tools()], keeping [result.tools]. *)
Variable list_tools : Session -> Result (list Tool).
(** [await session.call_tool(name, arguments)], keeping [result.content]. *)
Variable call_tool : Session -> string -> list (string * json) -> Result (list Content).
(** [state.index.search(query, top_k=top_k)]. *)
Variable index_search : Index -> json -> json -> Result (list (Tool * Score)).
(** [await session.send_tool_list_changed()] on the downstream session. *)
Variable send_tool_list_changed : DownSession -> Result unit.
(** [f"{score:.3f}"] *)
Variable format_score : Score -> string.

(** The loop of [connect_all]: returns the sessions dict, the failed
    names and the log. *)
Fixpoint connect_loop (srvs : list (string * ServerConfig))
  (ss : list (string * Session)) (failed : list string)
  : list (string * Session) * list string * list Event :=
  match srvs with
  | [] => (ss, failed, [])
  | (name, server_cfg) :: rest =>
      match connect name server_cfg with
      | Ok session =>
          let '(ss', failed', ev) := connect_loop rest (dict_set ss name session) failed in
          (ss', failed', Log INFO "Connected to upstream server: %s" [AStr name] :: ev)
      | Raise exc =>
          let '(ss', failed', ev) := connect_loop rest ss (failed ++ [name]) in
          (ss', failed',
           Log WARNING "Failed to connect to server '%s': %s" [AStr name; AExc exc] :: ev)
      end
  end.

(** [UpstreamManager.connect_all] *)
Definition connect_all (self : UpstreamManager Session) (cfg : SmartMCPConfig)
  : Result (list string) * UpstreamManager Session * list Event :=
  let '(ss, failed, ev) := connect_loop (servers cfg) (sessions self) [] in
  match ss with
  | [] => (Raise (RuntimeError
                    "All upstream servers failed to connect. Cannot start smartmcp."),
           mkUpstreamManager ss, ev)
  | _ => (Ok failed, mkUpstreamManager ss, ev)
  end.

(** The records [collect_tools] builds for one server. *)
Definition prefix_tools (name : string) (tools : list Tool) : list (string * Tool) :=
  map (fun tool => (name, mkTool (prefix_tool_name name (tool_name tool))
                                 (tool_description tool) (tool_inputSchema tool)))
      tools.

Fixpoint collect_loop (ss : list (string * Session))
  : Result (list (string * Tool)) * list Event :=
  match ss with
  | [] => (Ok [], [])
  | (name, session) :: rest =>
      match list_tools session with
      | Raise exc => (Raise exc, [])     (** no handler: the exception propagates *)
      | Ok tools =>
          let '(r, ev) := collect_loop rest in
          (match r with
           | Ok recs => Ok (prefix_tools name tools ++ recs)%list
           | Raise exc => Raise exc
           end,
           Log INFO "Collected %d tool(s) from server: %s"
               [ANat (length tools); AStr name] :: ev)
      end
  end.

(** [UpstreamManager.collect_tools] *)
Definition collect_tools (self : UpstreamManager Session)
  : Result (list (string * Tool)) * list Event :=
  collect_loop (sessions self).

(** [handle_list_tools] *)
Definition handle_list_tools (st : SmartMCPState Session Index) : list Tool :=
  SEARCH_TOOLS_SCHEMA :: active_tools st.

Definition search_summary (results : list (Tool * Score)) : string :=
  str_join NL
    (("Found " ++ nat_to_string (length results)
        ++ " matching tool(s). They are now available to call:" ++ NL)
     :: map (fun '(tool, score) =>
               "- " ++ tool_name tool ++ " (score: " ++ format_score score ++ "): "
                 ++ opt_str (tool_description tool))
            results).

(** [handle_call_tool]: the downstream [session] is
    [app.request_context.session]. The result is what the handler returns
    or raises, the state after it, and the effects it had in order. *)
Definition handle_call_tool (st : SmartMCPState Session Index) (session : DownSession)
  (name : string) (arguments : list (string * json))
  : Result (list Content) * SmartMCPState Session Index * list Event :=
  if String.eqb name SEARCH_TOOLS_NAME then
    let query := dict_get_default arguments "query" (JStr "") in
    let top_k := dict_get_default arguments "top_k" (JNum (top_k (config st))) in
    if negb (truthy query) then
      (Ok [TextContent "Error: 'query' is required"], st, [])
    else
      match index_search (index st) query top_k with
      | Raise exc =>
          (Ok [TextContent ("Search error: " ++ exc_str exc)], st,
           [Log ERROR "Search failed for query '%s': %s" [AJson query; AExc exc]])
      | Ok results =>
          let st' := set_active_tools st (map fst results) in
          let ev_update := Log INFO "Active tools updated: %d tool(s)"
                               [ANat (length (active_tools st'))] in
          let ev_notify :=
            match send_tool_list_changed session with
            | Ok tt => [ToolListChanged]
            | Raise exc =>
                [ToolListChanged;
                 Log WARNING "Failed to send tool_list_changed notification: %s" [AExc exc]]
            end in
          (Ok [TextContent (search_summary results)], st', ev_update :: ev_notify)
      end
  else
    match parse_prefixed_name name with
    | Raise _ => (Ok [TextContent ("Unknown tool: " ++ name)], st, [])
    | Ok (server_name, original_name) =>
        match dict_get (sessions (upstream st)) server_name with
        | None => (Ok [TextContent ("No upstream server: " ++ server_name)], st, [])
        | Some upstream_session =>
            let ev_proxy := Log INFO "Proxying tool call %s -> %s on %s"
                                [AStr name; AStr original_name; AStr server_name] in
            match call_tool upstream_session original_name arguments with
            | Ok content => (Ok content, st, [ev_proxy])
            | Raise exc =>
                (Ok [TextContent ("Error calling " ++ name ++ ": " ++ exc_str exc)], st,
                 [ev_proxy;
                  Log ERROR "Tool call failed: %s on %s: %s"
                      [AStr original_name; AStr server_name; AExc exc]])
            end
        end
    end.
End Gateway.

(* ------------------------------------------------------------------ *)
(** ** config.py: [load_config]

    [json.loads] returns dicts with distinct keys; a [JObj] stands for such
    a dict. The dataclasses do not check their field types, so a loaded
    configuration holds whatever JSON values the file had. Exceptions other
    than [ValueError] (the missing file, [TypeError], [AttributeError]) are
    [Exception] with Python's message. *)

Record ServerConfigV : Type := mkServerConfigV {
  v_command : json;
  v_args : json;
  v_env : json
}.

Record SmartMCPConfigV : Type := mkSmartMCPConfigV {
  v_servers : list (string * ServerConfigV);
  v_top_k : json;
  v_embedding_model : json
}.

Definition py_type_name (v : json) : string :=
  match v with
  | JNull => "NoneType"
  | JBool _ => "bool"
  | JNum _ => "int"
  | JStr _ => "str"
  | JArr _ => "list"
  | JObj _ => "dict"
  end.

(** ["command" in entry] *)
Definition has_command (entry : json) : Result bool :=
  match entry with
  | JObj kvs => Ok (match dict_get kvs "command" with Some _ => true | None => false end)
  | JArr xs => Ok (existsb (fun x => match x with JStr s => String.eqb s "command" | _ => false end) xs)
  | JStr s => Ok (str_contains "command" s)
  | JNull | JBool _ | JNum _ =>
      Raise (Exception ("argument of type '" ++ py_type_name entry ++ "' is not iterable"))
  end.

(** [ServerConfig(command=entry["command"], args=entry.get("args", []),
    env=entry.get("env", {}))], once ["command" in entry] held. *)
Definition make_server_config (entry : json) : Result ServerConfigV :=
  match entry with
  | JObj kvs =>
      Ok (mkServerConfigV (dict_get_default kvs "command" JNull)
                          (dict_get_default kvs "args" (JArr []))
                          (dict_get_default kvs "env" (JObj [])))
  | JArr _ => Raise (Exception "list indices must be integers or slices, not str")
  | _ => Raise (Exception "string indices must be integers, not 'str'")
  end.

(** The loop over [raw_servers.items()]. *)
Fixpoint load_servers (entries : list (string * json)) (servers : list (string * ServerConfigV))
  : Result (list (string * ServerConfigV)) :=
  match entries with
  | [] => Ok servers
  | (name, entry) :: rest =>
      match has_command entry with
      | Raise e => Raise e
      | Ok false => Raise (ValueError ("Server '" ++ name ++ "' is missing required 'command' field"))
      | Ok true =>
          match make_server_config entry with
          | Raise e => Raise e
          | Ok server_cfg => load_servers rest (dict_set servers name server_cfg)
          end
      end
  end.

(** [load_config(path)]: [exists] is [path.exists()] and [raw] the value
    [json.loads(path.read_text())] returned. *)
Definition load_config (path : string) (exists_ : bool) (raw : json) : Result SmartMCPConfigV :=
  if negb exists_ then Raise (Exception ("Config file not found: " ++ path)) else
  match raw with
  | JObj kvs =>
      let raw_servers := dict_get_default kvs "mcpServers" JNull in
      match raw_servers with
      | JObj ((_ :: _) as entries) =>
          match load_servers entries [] with
          | Raise e => Raise e
          | Ok servers =>
              Ok (mkSmartMCPConfigV servers
                    (dict_get_default kvs "top_k" (JNum 5))
                    (dict_get_default kvs "embedding_model" (JStr "all-MiniLM-L6-v2")))
          end
      | _ => Raise (ValueError "Config must contain a non-empty 'mcpServers' object")
      end
  | _ => Raise (Exception ("'" ++ py_type_name raw ++ "' object has no attribute 'get'"))
  end.

(* ------------------------------------------------------------------ *)
(** ** embedding.py: [tool_to_text] *)

Fixpoint replace_aux (fuel : nat) (old new s : string) : string :=
  match fuel with
  | O => s
  | S f =>
      match s with
      | EmptyString => EmptyString
      | String c s' =>
          match strip_prefix old s with
          | Some rest => new ++ replace_aux f old new rest
          | None => String c (replace_aux f old new s')
          end
      end
  end.

(** [s.replace(old, new)] for a non-empty [old]: left to right, without
    overlaps. Each step consumes at least one character, so [length s]
    steps suffice. *)
Definition py_replace (old new s : string) : string :=
  replace_aux (String.length s) old new s.

(** [tool.name.replace("__", " ").replace("_", " ")] *)
Definition segment_name (name : string) : string :=
  py_replace "_" " " (py_replace "__" " " name).

Section ToolText.
(** [str(v)] of a JSON value that is not a string (Python's rendering of
    numbers, lists and dicts). *)
Variable str_other : json -> string.

Definition py_str (v : json) : string :=
  match v with JStr s => s | _ => str_other v end.

(** The text of one schema parameter. *)
Definition param_text (param : string * json) : string :=
  let '(param_name, param_info) := param in
  py_replace "_" " " param_name ++
  match param_info with
  | JObj info =>
      match dict_get info "description" with
      | Some d => if truthy d then ": " ++ py_str d else ""
      | None => ""
      end
  | _ => ""
  end.

(** [tool_to_text]; [props.items()] raises unless [props] is a dict. *)
Definition tool_to_text (tool : Tool) : Result string :=
  let parts := segment_name (tool_name tool) ::
               match tool_description tool with
               | Some d => if String.eqb d "" then [] else [d]
               | None => []
               end in
  match dict_get_default (tool_inputSchema tool) "properties" (JObj []) with
  | JObj props => Ok (str_join " " (parts ++ map param_text props)%list)
  | props => Raise (Exception ("'" ++ py_type_name props ++ "' object has no attribute 'items'"))
  end.
End ToolText.

(* ------------------------------------------------------------------ *)
(** ** server.py: the [lifespan] startup *)

Section Startup.
Context {Session Vec : Type}.
Variable connect : string -> ServerConfig -> Result Session.
Variable list_tools : Session -> Result (list Tool).
(** [SentenceTransformer(model_name)], which may raise. *)
Variable load_model : string -> Result unit.
Variable embed_tool : Tool -> Vec.

(** The part of [lifespan] before [yield]: connect, collect, index. The
    result is the state the handlers get, or the exception that stops
    the server; the log is kept as for the other operations (the vector
    dimension of the index log line is not modelled, and [embed_tool]
    stands for [model.encode] and [normalize_L2], taken not to raise). *)
Definition lifespan_start (cfg : SmartMCPConfig)
  : Result (SmartMCPState Session (EmbeddingIndex Vec)) * list Event :=
  let '(r, upstream, ev_connect) := connect_all connect (mkUpstreamManager []) cfg in
  match r with
  | Raise exc => (Raise exc, ev_connect)
  | Ok failed =>
      let ev_failed :=
        match failed with
        | [] => []
        | _ => [Log WARNING "Some servers failed to connect: %s. Continuing with %d server(s)."
                    [AStr (str_join ", " failed); ANat (length (sessions upstream))]]
        end in
      let '(rc, ev_collect) := collect_tools list_tools upstream in
      match rc with
      | Raise exc => (Raise exc, ev_connect ++ ev_failed ++ ev_collect)
      | Ok raw_tools =>
          let tools_only := map snd raw_tools in
          match load_model (embedding_model cfg) with
          | Raise exc =>
              (Raise exc, ev_connect ++ ev_failed ++ ev_collect ++
                          [Log INFO "Loading embedding model: %s" [AStr (embedding_model cfg)]])
          | Ok tt =>
              let index := build_index embed_tool EmbeddingIndex_init tools_only in
              (Ok (mkSmartMCPState upstream index raw_tools cfg []),
               ev_connect ++ ev_failed ++ ev_collect ++
               [Log INFO "Loading embedding model: %s" [AStr (embedding_model cfg)];
                Log INFO "Embedding model loaded" [];
                Log INFO "Built FAISS index with %d tools (dim=%d)" [ANat (length tools_only)];
                Log INFO "smartmcp ready — %d tools indexed from %d server(s)"
                    [ANat (length tools_only); ANat (length (sessions upstream))]])
          end
      end
  end%list.
End Startup.


(* ================================================================== *)
(** * Properties *)

(* ------------------------------------------------------------------ *)
(** ** The name codec *)

Lemma str_contains_cons (sub : string) (c : ascii) (s : string) :
  str_contains sub (String c s) = false -> str_contains sub s = false.
Proof.
  simpl. destruct (strip_prefix sub (String c s)); [discriminate | auto].
Qed.

Lemma ends_with_underscore_cons (c : ascii) (s : string) :
  s <> EmptyString ->
  ends_with_underscore (String c s) = ends_with_underscore s.
Proof.
  intros Hs. unfold ends_with_underscore. destruct s; [congruence | reflexivity].
Qed.

(** Cutting [O ++ "__" ++ N] at the first separator gives back [O] and
    [N] when [O] has no separator and does not end in an underscore. *)
Lemma split_first_prefix_tool_name (O N : string) :
  str_contains SEPARATOR O = false ->
  ends_with_underscore O = false ->
  split_first SEPARATOR (prefix_tool_name O N) = Some (O, N).
Proof.
  unfold prefix_tool_name.
  induction O as [|c O IH]; intros Hsep Hend.
  - reflexivity.
  - assert (Hstrip : strip_prefix SEPARATOR (String c (O ++ SEPARATOR ++ N)) = None).
    { unfold SEPARATOR. cbn [strip_prefix append].
      destruct (Ascii.eqb "_" c) eqn:Ec; [|reflexivity].
      apply Ascii.eqb_eq in Ec; subst c.
      destruct O as [|c' O'].
      - discriminate Hend.
      - cbn [strip_prefix append].
        destruct (Ascii.eqb "_" c') eqn:Ec'; [|reflexivity].
        apply Ascii.eqb_eq in Ec'; subst c'. discriminate Hsep. }
    assert (HO : split_first SEPARATOR (O ++ SEPARATOR ++ N) = Some (O, N)).
    { apply IH.
      - exact (str_contains_cons _ _ _ Hsep).
      - destruct O as [|c' O']; [reflexivity|].
        rewrite <- Hend. symmetry. apply ends_with_underscore_cons. discriminate. }
    change (String c O ++ SEPARATOR ++ N) with (String c (O ++ SEPARATOR ++ N)).
    cbn [split_first]. rewrite Hstrip, HO. reflexivity.
Qed.

Lemma parse_prefix_tool_name (O N : string) :
  str_contains SEPARATOR O = false ->
  ends_with_underscore O = false ->
  parse_prefixed_name (prefix_tool_name O N) = Ok (O, N).
Proof.
  intros Hsep Hend. unfold parse_prefixed_name, py_split_max1.
  rewrite (split_first_prefix_tool_name O N Hsep Hend). reflexivity.
Qed.

(** Examples: the codec on the scenario of the spec, and on an origin
    ending in an underscore. *)
Example codec_files_read :
  parse_prefixed_name (prefix_tool_name "files" "read") = Ok ("files", "read").
Proof. reflexivity. Qed.

Example codec_trailing_underscore :
  prefix_tool_name "a_" "b" = prefix_tool_name "a" "_b".
Proof. reflexivity. Qed.

(** C3 (counterexample): the origin ["a_"] contains no ["__"], yet
    decoding the identifier ["a___b"] built from [("a_", "b")] gives
    [("a", "_b")]: the first ["__"] starts inside the origin. *)
Lemma C3_roundtrip_counterexample :
  ~ (forall O N : string,
        str_contains SEPARATOR O = false ->
        parse_prefixed_name (prefix_tool_name O N) = Ok (O, N)).
Proof.
  intros H. specialize (H "a_" "b" eq_refl). discriminate H.
Qed.

(** C3 (amended): for every origin name [O] that contains no ["__"] and
    does not end in ["_"], and every local name [N],
    [parse_prefixed_name (prefix_tool_name O N) = (O, N)]. *)
Theorem C3_roundtrip (O N : string) :
  str_contains SEPARATOR O = false ->
  ends_with_underscore O = false ->
  parse_prefixed_name (prefix_tool_name O N) = Ok (O, N).
Proof.
  intros Hsep Hend.
  unfold parse_prefixed_name, py_split_max1.
  rewrite (split_first_prefix_tool_name O N Hsep Hend). reflexivity.
Qed.

Lemma C3_roundtrip_witness :
  str_contains SEPARATOR "files" = false /\
  ends_with_underscore "files" = false /\
  parse_prefixed_name (prefix_tool_name "files" "read__all") = Ok ("files", "read__all").
Proof.
  split; [reflexivity|]. split; [reflexivity|].
  apply C3_roundtrip; reflexivity.
Defined.

(** Origins accepted by the amended codec contract. *)
Definition valid_origin (O : string) : bool :=
  negb (str_contains SEPARATOR O) && negb (ends_with_underscore O).

Lemma prefix_tool_name_inj (o1 n1 o2 n2 : string) :
  valid_origin o1 = true -> valid_origin o2 = true ->
  prefix_tool_name o1 n1 = prefix_tool_name o2 n2 -> (o1, n1) = (o2, n2).
Proof.
  unfold valid_origin. intros H1 H2 Heq.
  apply andb_prop in H1 as [H1a H1b]. apply andb_prop in H2 as [H2a H2b].
  apply negb_true_iff in H1a, H1b, H2a, H2b.
  pose proof (parse_prefix_tool_name o1 n1 H1a H1b) as E1.
  pose proof (parse_prefix_tool_name o2 n2 H2a H2b) as E2.
  rewrite Heq, E2 in E1. injection E1 as -> ->. reflexivity.
Qed.

(** The encoded identifiers of a list of (origin, local name) pairs. *)
Definition encoded_ids (pairs : list (string * string)) : list string :=
  map (fun '(o, n) => prefix_tool_name o n) pairs.

(** C4 (counterexample): the distinct pairs [("a_", "b")] and
    [("a", "_b")], whose origins contain no ["__"], both encode to
    ["a___b"]. *)
Lemma C4_unique_counterexample :
  ~ (forall pairs : list (string * string),
        NoDup pairs ->
        Forall (fun '(o, _) => str_contains SEPARATOR o = false) pairs ->
        NoDup (encoded_ids pairs)).
Proof.
  intros H.
  assert (Hd : NoDup [("a_", "b"); ("a", "_b")]).
  { constructor; [|constructor; [intros []|constructor]].
    intros [E|[]]; discriminate E. }
  assert (Hf : Forall (fun '(o, _) => str_contains SEPARATOR o = false)
                      [("a_", "b"); ("a", "_b")]).
  { repeat constructor. }
  specialize (H _ Hd Hf).
  inversion H as [|x l Hnot _]. apply Hnot. left. reflexivity.
Qed.

(** C4 (amended): for pairwise-distinct (origin, local name) pairs whose
    origins contain no ["__"] and do not end in ["_"], the encoded
    identifiers are pairwise distinct. *)
Theorem C4_unique_ids (pairs : list (string * string)) :
  NoDup pairs ->
  Forall (fun '(o, _) => valid_origin o = true) pairs ->
  NoDup (encoded_ids pairs).
Proof.
  induction pairs as [|[o n] pairs IH]; intros Hnd Hval.
  - constructor.
  - inversion Hnd as [|x l Hnotin Hnd']; subst.
    inversion Hval as [|x l Ho Hval']; subst.
    simpl. constructor; [|exact (IH Hnd' Hval')].
    intros Hin. apply in_map_iff in Hin as [[o' n'] [Heq Hin']].
    rewrite Forall_forall in Hval'. specialize (Hval' _ Hin'). simpl in Hval'.
    apply (prefix_tool_name_inj o' n' o n Hval' Ho) in Heq.
    rewrite Heq in Hin'. contradiction.
Qed.

Lemma C4_unique_ids_witness :
  NoDup [("files", "read"); ("web", "fetch"); ("files", "write")] /\
  NoDup (encoded_ids [("files", "read"); ("web", "fetch"); ("files", "write")]).
Proof.
  assert (Hd : NoDup [("files", "read"); ("web", "fetch"); ("files", "write")]).
  { repeat constructor; simpl; intuition discriminate. }
  split; [exact Hd|].
  apply C4_unique_ids; [exact Hd|].
  repeat constructor.
Defined.

(* ------------------------------------------------------------------ *)
(** ** The indexer's search *)

(** Ranked hits: each score at least the next one. *)
Definition score_ge (a b : nat * Z) : Prop := (snd b <= snd a)%Z.

Lemma insert_desc_length (x : nat * Z) (l : list (nat * Z)) :
  length (insert_desc x l) = S (length l).
Proof.
  induction l as [|y l IH]; simpl; [reflexivity|].
  destruct (snd x <=? snd y)%Z; simpl; congruence.
Qed.

Lemma insert_desc_sorted (x : nat * Z) (l : list (nat * Z)) :
  Sorted score_ge l -> Sorted score_ge (insert_desc x l).
Proof.
  unfold score_ge.
  induction l as [|y l IH]; intros Hs; simpl.
  - repeat constructor.
  - destruct (snd x <=? snd y)%Z eqn:E.
    + apply Z.leb_le in E.
      apply Sorted_inv in Hs as [Hl Hhd].
      constructor; [exact (IH Hl)|].
      destruct l as [|z l]; simpl.
      * constructor. exact E.
      * apply HdRel_inv in Hhd.
        destruct (snd x <=? snd z)%Z; constructor; assumption.
    + apply Z.leb_gt in E.
      constructor; [exact Hs|]. constructor. simpl. lia.
Qed.

Lemma rank_desc_length (l : list (nat * Z)) : length (rank_desc l) = length l.
Proof.
  unfold rank_desc.
  assert (H : forall acc, length (fold_left (fun acc x => insert_desc x acc) l acc)
                          = length acc + length l).
  { induction l as [|x l IH]; intros acc; simpl; [lia|].
    rewrite IH, insert_desc_length. lia. }
  rewrite H. reflexivity.
Qed.

Lemma rank_desc_sorted (l : list (nat * Z)) : Sorted score_ge (rank_desc l).
Proof.
  unfold rank_desc.
  assert (H : forall acc, Sorted score_ge acc ->
                          Sorted score_ge (fold_left (fun acc x => insert_desc x acc) l acc)).
  { induction l as [|x l IH]; intros acc Hacc; simpl; [exact Hacc|].
    apply IH, insert_desc_sorted, Hacc. }
  apply H. constructor.
Qed.

Lemma firstn_sorted {A} (R : A -> A -> Prop) (n : nat) (l : list A) :
  Sorted R l -> Sorted R (firstn n l).
Proof.
  revert l. induction n as [|n IH]; intros l Hs; simpl; [constructor|].
  destruct l as [|x l]; [constructor|].
  apply Sorted_inv in Hs as [Hl Hhd].
  constructor; [exact (IH l Hl)|].
  destruct n, l; simpl; try constructor.
  apply HdRel_inv in Hhd. exact Hhd.
Qed.

(** Dropping hits and keeping the score of every hit that is kept, as the
    zip back to the tools does, preserves the ranking. *)
Lemma flat_map_keep_score_sorted {T} (f : nat * Z -> list (T * Z)) (l : list (nat * Z)) :
  (forall p, f p = [] \/ exists t, f p = [(t, snd p)]) ->
  Sorted score_ge l -> Sorted Z.ge (map snd (flat_map f l)).
Proof.
  intros Hf Hs.
  apply StronglySorted_Sorted.
  apply Sorted_StronglySorted in Hs;
    [|intros a b c; unfold score_ge; lia].
  induction l as [|p l IH]; simpl; [constructor|].
  apply StronglySorted_inv in Hs as [Hl Hall].
  destruct (Hf p) as [E | [t E]]; rewrite E; simpl; [exact (IH Hl)|].
  constructor; [exact (IH Hl)|].
  apply Forall_forall. intros s Hin.
  apply in_map_iff in Hin as [[t' s'] [Es Hin]]. simpl in Es; subst s'.
  apply in_flat_map in Hin as [q [Hq Hin]].
  rewrite Forall_forall in Hall. specialize (Hall q Hq). unfold score_ge in Hall.
  destruct (Hf q) as [E' | [t'' E']]; rewrite E' in Hin; [destruct Hin|].
  destruct Hin as [Eq|[]]. injection Eq as _ <-. lia.
Qed.

Lemma flat_map_keep_length {T} (f : nat * Z -> list (T * Z)) (l : list (nat * Z)) :
  (forall p, f p = [] \/ exists t, f p = [(t, snd p)]) ->
  length (flat_map f l) <= length l.
Proof.
  intros Hf. induction l as [|p l IH]; simpl; [lia|].
  rewrite length_app. destruct (Hf p) as [E | [t E]]; rewrite E; simpl; lia.
Qed.

Lemma zip_back_keeps_score (tools : list Tool) :
  forall p : nat * Z,
    (fun '(i, s) => match nth_error tools i with
                    | Some t => [(t, s)]
                    | None => []
                    end) p = []
    \/ exists t, (fun '(i, s) => match nth_error tools i with
                                 | Some t => [(t, s)]
                                 | None => []
                                 end) p = [(t, snd p)].
Proof.
  intros [i s]. destruct (nth_error tools i) as [t|]; [right; exists t|left]; reflexivity.
Qed.

Lemma index_query_length {Vec} (inner : Vec -> Vec -> Z) (vecs : list Vec) (q : Vec) (k : nat) :
  length (index_query inner vecs q k) = Nat.min k (length vecs).
Proof.
  unfold index_query.
  rewrite length_firstn, rank_desc_length, length_combine, length_seq, length_map.
  rewrite Nat.min_id. reflexivity.
Qed.

Lemma insert_desc_in (x y : nat * Z) (l : list (nat * Z)) :
  In y (insert_desc x l) -> y = x \/ In y l.
Proof.
  induction l as [|z l IH]; simpl; [intros [<-|[]]; left; reflexivity|].
  destruct (snd x <=? snd z)%Z.
  - intros [<-|Hin]; [right; left; reflexivity|].
    destruct (IH Hin) as [E|Hin']; [left; exact E|right; right; exact Hin'].
  - intros [<-|Hin]; [left; reflexivity|right; exact Hin].
Qed.

Lemma rank_desc_in (l : list (nat * Z)) (y : nat * Z) : In y (rank_desc l) -> In y l.
Proof.
  unfold rank_desc.
  assert (H : forall acc, In y (fold_left (fun acc x => insert_desc x acc) l acc) ->
                          In y acc \/ In y l).
  { induction l as [|x l IH]; intros acc Hin; simpl in *; [left; exact Hin|].
    destruct (IH _ Hin) as [Hacc|Hl]; [|right; right; exact Hl].
    destruct (insert_desc_in x y acc Hacc) as [E|Hacc']; [right; left; auto|left; exact Hacc']. }
  intros Hin. destruct (H [] Hin) as [[]|Hl]. exact Hl.
Qed.

(** Every hit of the index primitive is the position of a stored vector. *)
Lemma index_query_positions {Vec} (inner : Vec -> Vec -> Z) (vecs : list Vec) (q : Vec)
  (k : nat) (i : nat) (s : Z) :
  In (i, s) (index_query inner vecs q k) -> i < length vecs.
Proof.
  unfold index_query. intros Hin.
  assert (Hl : forall A (n : nat) (l : list A) x, In x (firstn n l) -> In x l).
  { intros A n l x H. rewrite <- (firstn_skipn n l). apply in_or_app. left. exact H. }
  apply Hl, rank_desc_in, in_combine_l, in_seq in Hin. lia.
Qed.

Lemma flat_map_all_kept {T} (f : nat * Z -> list (T * Z)) (l : list (nat * Z)) :
  (forall p, In p l -> exists t, f p = [(t, snd p)]) ->
  length (flat_map f l) = length l.
Proof.
  intros Hf. induction l as [|p l IH]; simpl; [reflexivity|].
  rewrite length_app. destruct (Hf p (or_introl eq_refl)) as [t E]. rewrite E.
  simpl. f_equal. apply IH. intros p' Hin. apply Hf. right. exact Hin.
Qed.

(** An index of one tool with all scores zero, to evaluate [search] on. *)
Definition demo_tool : Tool := mkTool "files__read" (Some "read a file from disk") [].

Example search_demo :
  search (fun _ : string => tt) (fun _ _ => 0%Z)
    (build_index (fun _ => tt) EmbeddingIndex_init [demo_tool]) "q" 0
  = Ok [(demo_tool, 0%Z)].
Proof. reflexivity. Qed.

(** C1 (counterexample): with a one-tool catalog and [k = 0], the clamp
    raises [k] to 1 and [search] returns one result, more than [k]. *)
Lemma C1_search_counterexample :
  ~ (forall (tools : list Tool) (query : string) (k : Z) (rs : list (Tool * Z)),
        search (fun _ : string => tt) (fun _ _ => 0%Z)
          (build_index (fun _ => tt) EmbeddingIndex_init tools) query k = Ok rs ->
        (Z.of_nat (length rs) <= k)%Z).
Proof.
  intros H. specialize (H [demo_tool] "q" 0%Z _ search_demo). simpl in H. lia.
Qed.

(** C1 (amended): searching before [build_index] fails with
    [IndexNotBuilt]; after [build_index tools] (on any previous index),
    [search query k] returns at most [max 1 k] results (at most [k] when
    [k >= 1]) and at most the catalog size, ordered by non-increasing
    score; it returns exactly [min (max 1 k) (length tools)] results, so
    one result for [k <= 0] on a non-empty catalog. *)
Theorem C1_search_bounded_sorted {Vec : Type}
  (embed_text : string -> Vec) (embed_tool : Tool -> Vec) (inner : Vec -> Vec -> Z)
  (self : EmbeddingIndex Vec) (tools : list Tool) (query : string) (k : Z) :
  search embed_text inner EmbeddingIndex_init query k = Raise IndexNotBuilt /\
  exists rs,
    search embed_text inner (build_index embed_tool self tools) query k = Ok rs /\
    length rs <= Z.to_nat (Z.max 1 k) /\
    length rs <= length tools /\
    Sorted Z.ge (map snd rs) /\
    length rs = Nat.min (Z.to_nat (Z.max 1 k)) (length tools) /\
    (tools <> [] -> (k <= 0)%Z -> length rs = 1).
Proof.
  split; [reflexivity|].
  eexists. split; [reflexivity|]. cbn [_index _tools build_index].
  set (k' := Z.to_nat (Z.max 1 (Z.min k (Z.of_nat (length tools))))).
  set (hits := index_query inner (map embed_tool tools) (embed_text query) k').
  pose proof (flat_map_keep_length _ hits (zip_back_keeps_score tools)) as Hlen.
  assert (Hh : length hits = Nat.min k' (length tools)).
  { unfold hits. rewrite index_query_length, length_map. reflexivity. }
  assert (Hk : k' <= Z.to_nat (Z.max 1 k)).
  { unfold k'. apply Z2Nat.inj_le; lia. }
  assert (Hexact : length (flat_map (fun '(i, s) => match nth_error tools i with
                                                     | Some t => [(t, s)]
                                                     | None => []
                                                     end) hits)
                   = Nat.min (Z.to_nat (Z.max 1 k)) (length tools)).
  { rewrite flat_map_all_kept.
    - rewrite Hh. unfold k'. destruct tools as [|t0 ts]; simpl length; [lia|].
      rewrite Z2Nat.inj_max, Z2Nat.inj_min, Nat2Z.id. simpl (Z.to_nat 1). lia.
    - intros [i s] Hin. unfold hits in Hin.
      apply index_query_positions in Hin. rewrite length_map in Hin.
      destruct (nth_error tools i) as [t|] eqn:E; [exists t; reflexivity|].
      apply nth_error_None in E. lia. }
  split; [|split; [|split; [|split]]].
  - lia.
  - lia.
  - apply flat_map_keep_score_sorted; [exact (zip_back_keeps_score tools)|].
    unfold hits, index_query. apply firstn_sorted, rank_desc_sorted.
  - exact Hexact.
  - intros Hne Hk0. rewrite Hexact.
    destruct tools as [|t0 ts]; [contradiction|]. simpl length.
    rewrite Z.max_l by lia. simpl. reflexivity.
Qed.

(* ------------------------------------------------------------------ *)
(** ** Collecting the catalog *)

(** Two servers: [files] (session 1) whose [list_tools] fails, and [web]
    (session 2) which reports one tool. *)
Definition demo_list_tools (s : nat) : Result (list Tool) :=
  match s with
  | 1 => Raise (Exception "connection closed")
  | _ => Ok [mkTool "fetch" (Some "fetch a URL") []]
  end.

(** C2 (code_bug): [collect_tools] has no handler around
    [session.list_tools()]: when the first of two sessions fails to list
    its tools, the whole collection raises, nothing is logged, and the
    records of the second session are lost. *)
Theorem C2_collect_tools_propagates :
  collect_tools demo_list_tools (mkUpstreamManager [("files", 1); ("web", 2)])
  = (Raise (Exception "connection closed"), []).
Proof. reflexivity. Qed.

(** In general, one failing session makes the whole collection raise. *)
Lemma collect_tools_raises {Session} (list_tools : Session -> Result (list Tool))
  (ss : list (string * Session)) :
  (exists name s, In (name, s) ss /\ is_raise (list_tools s) = true) ->
  is_raise (fst (collect_tools list_tools (mkUpstreamManager ss))) = true.
Proof.
  unfold collect_tools. cbn [sessions].
  induction ss as [|[name s] ss IH]; intros [n [s' [Hin Hr]]]; [destruct Hin|].
  simpl. destruct (list_tools s) as [tools|e] eqn:E; [|reflexivity].
  destruct Hin as [Eq|Hin].
  - injection Eq as -> ->. rewrite E in Hr. discriminate.
  - specialize (IH (ex_intro _ n (ex_intro _ s' (conj Hin Hr)))).
    destruct (collect_loop list_tools ss) as [[recs|e] ev]; [discriminate|reflexivity].
Qed.

(* ------------------------------------------------------------------ *)
(** ** Connecting to the configured servers *)

Lemma dict_get_set {V} (d : list (string * V)) (k n : string) (v : V) :
  dict_get (dict_set d k v) n = if String.eqb n k then Some v else dict_get d n.
Proof.
  induction d as [|[k' v'] d IH]; simpl.
  - reflexivity.
  - destruct (String.eqb k k') eqn:Ekk'.
    + apply String.eqb_eq in Ekk'; subst k'. simpl.
      destruct (String.eqb n k); reflexivity.
    + simpl. rewrite IH.
      destruct (String.eqb n k') eqn:Enk'; destruct (String.eqb n k) eqn:Enk;
        try reflexivity.
      apply String.eqb_eq in Enk'. apply String.eqb_eq in Enk. subst k k'.
      rewrite String.eqb_refl in Ekk'. discriminate.
Qed.

(** The names of the configured servers whose connection raises. *)
Definition failed_names {Session} (connect : string -> ServerConfig -> Result Session)
  (srvs : list (string * ServerConfig)) : list string :=
  map fst (filter (fun '(name, server_cfg) => is_raise (connect name server_cfg)) srvs).

Lemma connect_loop_spec {Session} (connect : string -> ServerConfig -> Result Session)
  (srvs : list (string * ServerConfig)) :
  forall ss failed,
    let '(ss', failed', ev) := connect_loop connect srvs ss failed in
    failed' = (failed ++ failed_names connect srvs)%list /\
    length ev = length srvs /\
    (forall n, dict_get ss' n <> None <->
               dict_get ss n <> None \/
               exists server_cfg s, In (n, server_cfg) srvs /\ connect n server_cfg = Ok s).
Proof.
  unfold failed_names.
  induction srvs as [|[name server_cfg] srvs IH]; intros ss failed; simpl.
  - rewrite app_nil_r. split; [reflexivity|]. split; [reflexivity|].
    intros n. split; [left; assumption|]. intros [H|[c [s [[] _]]]]. exact H.
  - destruct (connect name server_cfg) as [session|exc] eqn:Ec; simpl.
    + specialize (IH (dict_set ss name session) failed).
      destruct (connect_loop connect srvs (dict_set ss name session) failed)
        as [[ss' failed'] ev].
      destruct IH as [Hf [Hl Hd]]. split; [exact Hf|]. split; [simpl; congruence|].
      intros n. rewrite Hd, dict_get_set.
      destruct (String.eqb n name) eqn:En.
      * apply String.eqb_eq in En; subst n. split; [|intros _; left; discriminate].
        intros _. right. exists server_cfg, session. split; [left; reflexivity|exact Ec].
      * split.
        -- intros [H|[c [s [Hin Hc]]]]; [left; exact H|].
           right. exists c, s. split; [right; exact Hin|exact Hc].
        -- intros [H|[c [s [[Eq|Hin] Hc]]]]; [left; exact H| |].
           ++ injection Eq as -> _. rewrite String.eqb_refl in En. discriminate.
           ++ right. exists c, s. split; assumption.
    + specialize (IH ss (failed ++ [name])%list).
      destruct (connect_loop connect srvs ss (failed ++ [name])%list) as [[ss' failed'] ev].
      destruct IH as [Hf [Hl Hd]].
      split; [rewrite Hf, <- app_assoc; reflexivity|]. split; [simpl; congruence|].
      intros n. rewrite Hd. split.
      * intros [H|[c [s [Hin Hc]]]]; [left; exact H|].
        right. exists c, s. split; [right; exact Hin|exact Hc].
      * intros [H|[c [s [[Eq|Hin] Hc]]]]; [left; exact H| |].
        -- injection Eq as -> ->. rewrite Ec in Hc. discriminate.
        -- right. exists c, s. split; assumption.
Qed.

(** C5: [connect_all] attempts every configured server (one log entry
    each); a server whose connection raises is recorded in the failure
    list, in configuration order, without stopping the others; the
    sessions afterwards are the previous ones plus every server that
    connected; the call raises the all-upstreams-unavailable [RuntimeError]
    exactly when no session is connected, and otherwise returns the
    failure list. *)
Theorem C5_connect_all {Session} (connect : string -> ServerConfig -> Result Session)
  (self : UpstreamManager Session) (cfg : SmartMCPConfig) :
  let '(r, mgr, ev) := connect_all connect self cfg in
  length ev = length (servers cfg) /\
  (forall n, dict_get (sessions mgr) n <> None <->
             dict_get (sessions self) n <> None \/
             exists server_cfg s,
               In (n, server_cfg) (servers cfg) /\ connect n server_cfg = Ok s) /\
  (sessions mgr = [] ->
     r = Raise (RuntimeError "All upstream servers failed to connect. Cannot start smartmcp.")) /\
  (sessions mgr <> [] -> r = Ok (failed_names connect (servers cfg))).
Proof.
  unfold connect_all.
  pose proof (connect_loop_spec connect (servers cfg) (sessions self) []) as H.
  destruct (connect_loop connect (servers cfg) (sessions self) []) as [[ss failed] ev].
  destruct H as [Hf [Hl Hd]].
  destruct ss as [|p ss]; cbn [sessions];
    (split; [exact Hl|]); (split; [exact Hd|]); split; intros Hss.
  - reflexivity.
  - congruence.
  - discriminate.
  - rewrite Hf. reflexivity.
Qed.

(** The scenario of the spec: three servers, the second fails. *)
Definition demo_connect (name : string) (_ : ServerConfig) : Result nat :=
  if String.eqb name "db" then Raise (Exception "spawn failed") else Ok (String.length name).

Definition demo_config : SmartMCPConfig :=
  mkSmartMCPConfig
    [("files", mkServerConfig "files-server" [] []);
     ("db", mkServerConfig "db-server" [] []);
     ("web", mkServerConfig "web-server" [] [])] 5 "all-MiniLM-L6-v2".

Example connect_all_demo :
  fst (fst (connect_all demo_connect (mkUpstreamManager []) demo_config)) = Ok ["db"].
Proof. reflexivity. Qed.

(* ------------------------------------------------------------------ *)
(** ** The downstream handlers *)

Lemma split_first_no_sep (s : string) :
  str_contains SEPARATOR s = false -> split_first SEPARATOR s = None.
Proof.
  induction s as [|c s IH]; intros H; [reflexivity|].
  cbn [split_first]. cbn [str_contains] in H.
  destruct (strip_prefix SEPARATOR (String c s)); [discriminate|].
  rewrite (IH H). reflexivity.
Qed.

Lemma parse_search_tools_name : is_raise (parse_prefixed_name SEARCH_TOOLS_NAME) = true.
Proof. reflexivity. Qed.

Section Handlers.
Context {Session DownSession Index Score : Type}.
Variable call_tool : Session -> string -> list (string * json) -> Result (list Content).
Variable index_search : Index -> json -> json -> Result (list (Tool * Score)).
Variable send_tool_list_changed : DownSession -> Result unit.
Variable format_score : Score -> string.

Abbreviation handle := (handle_call_tool call_tool index_search send_tool_list_changed format_score).

(** C7: the listing is the discovery tool followed by the active tools,
    in order, whatever the active set (also when it is empty). *)
Theorem C7_list_tools (st : SmartMCPState Session Index) :
  handle_list_tools st = SEARCH_TOOLS_SCHEMA :: active_tools st /\
  hd_error (handle_list_tools st) = Some SEARCH_TOOLS_SCHEMA /\
  handle_list_tools (set_active_tools st []) = [SEARCH_TOOLS_SCHEMA].
Proof. split; [|split]; reflexivity. Qed.

(** C6: a successful discovery call (non-empty query, search returning
    [results]) replaces the active set by exactly the returned tools,
    leaves the rest of the state alone, logs the update and then makes
    exactly one [send_tool_list_changed] call; when that call raises, the
    exception is logged as a WARNING and swallowed: whatever that call
    does, the response is the summary of the results. *)
Theorem C6_discovery_replaces_and_notifies
  (st : SmartMCPState Session Index) (session : DownSession)
  (name : string) (arguments : list (string * json))
  (results : list (Tool * Score)) :
  name = SEARCH_TOOLS_NAME ->
  truthy (dict_get_default arguments "query" (JStr "")) = true ->
  index_search (index st) (dict_get_default arguments "query" (JStr ""))
    (dict_get_default arguments "top_k" (JNum (top_k (config st)))) = Ok results ->
  exists ev_notify,
    handle st session name arguments
    = (Ok [TextContent (search_summary format_score results)],
       set_active_tools st (map fst results),
       Log INFO "Active tools updated: %d tool(s)" [ANat (length results)] :: ev_notify) /\
    active_tools (set_active_tools st (map fst results)) = map fst results /\
    length (filter is_notification ev_notify) = 1 /\
    hd_error ev_notify = Some ToolListChanged /\
    (send_tool_list_changed session = Ok tt -> ev_notify = [ToolListChanged]) /\
    (forall exc, send_tool_list_changed session = Raise exc ->
       ev_notify = [ToolListChanged;
                    Log WARNING "Failed to send tool_list_changed notification: %s" [AExc exc]]).
Proof.
  intros -> Hq Hs. unfold handle_call_tool.
  rewrite String.eqb_refl, Hq, Hs. cbn [negb].
  cbn [active_tools set_active_tools]. rewrite length_map.
  destruct (send_tool_list_changed session) as [[]|exc].
  - eexists. split; [reflexivity|]. split; [reflexivity|]. split; [reflexivity|].
    split; [reflexivity|]. split; [intros _; reflexivity|]. intros e H. discriminate H.
  - eexists. split; [reflexivity|]. split; [reflexivity|]. split; [reflexivity|].
    split; [reflexivity|]. split; [intros H; discriminate H|].
    intros e H. injection H as <-. reflexivity.
Qed.

(** C10: when the search raises, the response is a search-error text,
    the state is unchanged (so is the active set) and no notification is
    sent; only the error is logged. *)
Theorem C10_search_error_atomic
  (st : SmartMCPState Session Index) (session : DownSession)
  (name : string) (arguments : list (string * json)) (exc : Exc) :
  name = SEARCH_TOOLS_NAME ->
  truthy (dict_get_default arguments "query" (JStr "")) = true ->
  index_search (index st) (dict_get_default arguments "query" (JStr ""))
    (dict_get_default arguments "top_k" (JNum (top_k (config st)))) = Raise exc ->
  exists ev,
    handle st session name arguments
    = (Ok [TextContent ("Search error: " ++ exc_str exc)], st, ev) /\
    filter is_notification ev = [].
Proof.
  intros -> Hq Hs. unfold handle_call_tool.
  rewrite String.eqb_refl, Hq, Hs. cbn [negb].
  eexists. split; reflexivity.
Qed.

(** C8: an identifier that decodes to [(server_name, original_name)]
    whose origin has a connected session is forwarded to that session's
    [call_tool] and its content relayed (an upstream failure becomes an
    error text); the outcome is the same for every active set. *)
Theorem C8_dispatch_ignores_active_set
  (st : SmartMCPState Session Index) (session : DownSession)
  (name : string) (arguments : list (string * json))
  (server_name original_name : string) (upstream_session : Session) :
  parse_prefixed_name name = Ok (server_name, original_name) ->
  dict_get (sessions (upstream st)) server_name = Some upstream_session ->
  (forall ts : list Tool,
     fst (fst (handle (set_active_tools st ts) session name arguments))
     = fst (fst (handle st session name arguments))) /\
  fst (fst (handle st session name arguments))
  = match call_tool upstream_session original_name arguments with
    | Ok content => Ok content
    | Raise exc => Ok [TextContent ("Error calling " ++ name ++ ": " ++ exc_str exc)]
    end.
Proof.
  intros Hp Hg.
  assert (Hn : String.eqb name SEARCH_TOOLS_NAME = false).
  { destruct (String.eqb name SEARCH_TOOLS_NAME) eqn:E; [|reflexivity].
    apply String.eqb_eq in E. subst name. discriminate Hp. }
  unfold handle_call_tool. rewrite Hn, Hp. cbn [upstream set_active_tools].
  rewrite Hg.
  split.
  - intros ts. destruct (call_tool upstream_session original_name arguments); reflexivity.
  - destruct (call_tool upstream_session original_name arguments); reflexivity.
Qed.

(** C9: an identifier other than the discovery name that has no
    separator gets the text ["Unknown tool: <name>"]; one whose decoded
    origin has no session gets ["No upstream server: <origin>"]; in both
    cases the handler returns normally, with the state unchanged and no
    effect. *)
Theorem C9_dispatch_unknown
  (st : SmartMCPState Session Index) (session : DownSession)
  (name : string) (arguments : list (string * json)) :
  name <> SEARCH_TOOLS_NAME ->
  (str_contains SEPARATOR name = false ->
     handle st session name arguments
     = (Ok [TextContent ("Unknown tool: " ++ name)], st, [])) /\
  (forall server_name original_name,
     parse_prefixed_name name = Ok (server_name, original_name) ->
     dict_get (sessions (upstream st)) server_name = None ->
     handle st session name arguments
     = (Ok [TextContent ("No upstream server: " ++ server_name)], st, [])).
Proof.
  intros Hn.
  assert (Hn' : String.eqb name SEARCH_TOOLS_NAME = false)
    by (apply String.eqb_neq; exact Hn).
  unfold handle_call_tool. rewrite Hn'. split.
  - intros Hc. unfold parse_prefixed_name, py_split_max1.
    rewrite (split_first_no_sep name Hc). reflexivity.
  - intros server_name original_name Hp Hg. rewrite Hp, Hg. reflexivity.
Qed.
End Handlers.

(* ------------------------------------------------------------------ *)
(** ** The handlers on the scenario of the spec *)

(** One connected server [files] (session 1); [web] never connected. *)
Definition demo_state : SmartMCPState nat unit :=
  mkSmartMCPState (mkUpstreamManager [("files", 1)]) tt
    [("files", mkTool "files__read" (Some "read a file from disk") [])]
    demo_config [].

Definition demo_call_tool (s : nat) (tool : string) (_ : list (string * json))
  : Result (list Content) :=
  Ok [TextContent ("contents of /tmp/x via " ++ tool)].

Definition demo_search_ok (_ : unit) (_ _ : json) : Result (list (Tool * Z)) :=
  Ok [(demo_tool, 1%Z)].

Definition demo_search_fail (_ : unit) (_ _ : json) : Result (list (Tool * Z)) :=
  Raise (Exception "model not loaded").

(** The downstream notification fails: it must be swallowed. *)
Definition demo_send (_ : unit) : Result unit := Raise (Exception "stream closed").

Definition demo_format (_ : Z) : string := "1.000".

Definition demo_query : list (string * json) :=
  [("query", JStr "read a document from local storage"); ("top_k", JNum 1)].

Lemma C6_discovery_replaces_and_notifies_witness :
  exists ev_notify,
    handle_call_tool demo_call_tool demo_search_ok demo_send demo_format
      demo_state tt SEARCH_TOOLS_NAME demo_query
    = (Ok [TextContent (search_summary demo_format [(demo_tool, 1%Z)])],
       set_active_tools demo_state [demo_tool],
       Log INFO "Active tools updated: %d tool(s)" [ANat 1] :: ev_notify) /\
    active_tools (set_active_tools demo_state (map fst [(demo_tool, 1%Z)]))
      = map fst [(demo_tool, 1%Z)] /\
    length (filter is_notification ev_notify) = 1 /\
    hd_error ev_notify = Some ToolListChanged /\
    (demo_send tt = Ok tt -> ev_notify = [ToolListChanged]) /\
    (forall exc, demo_send tt = Raise exc ->
       ev_notify = [ToolListChanged;
                    Log WARNING "Failed to send tool_list_changed notification: %s" [AExc exc]]).
Proof.
  apply (C6_discovery_replaces_and_notifies demo_call_tool demo_search_ok demo_send
           demo_format demo_state tt SEARCH_TOOLS_NAME demo_query [(demo_tool, 1%Z)]);
    reflexivity.
Defined.

Lemma C10_search_error_atomic_witness :
  exists ev,
    handle_call_tool demo_call_tool demo_search_fail demo_send demo_format
      demo_state tt SEARCH_TOOLS_NAME demo_query
    = (Ok [TextContent ("Search error: " ++ exc_str (Exception "model not loaded"))],
       demo_state, ev) /\
    filter is_notification ev = [].
Proof.
  apply (C10_search_error_atomic demo_call_tool demo_search_fail demo_send
           demo_format demo_state tt SEARCH_TOOLS_NAME demo_query
           (Exception "model not loaded"));
    reflexivity.
Defined.

Lemma C8_dispatch_ignores_active_set_witness :
  (forall ts : list Tool,
     fst (fst (handle_call_tool demo_call_tool demo_search_ok demo_send demo_format
                 (set_active_tools demo_state ts) tt "files__read" [("path", JStr "/tmp/x")]))
     = fst (fst (handle_call_tool demo_call_tool demo_search_ok demo_send demo_format
                   demo_state tt "files__read" [("path", JStr "/tmp/x")]))) /\
  fst (fst (handle_call_tool demo_call_tool demo_search_ok demo_send demo_format
              demo_state tt "files__read" [("path", JStr "/tmp/x")]))
  = match demo_call_tool 1 "read" [("path", JStr "/tmp/x")] with
    | Ok content => Ok content
    | Raise exc => Ok [TextContent ("Error calling " ++ "files__read" ++ ": " ++ exc_str exc)]
    end.
Proof.
  apply (C8_dispatch_ignores_active_set demo_call_tool demo_search_ok demo_send
           demo_format demo_state tt "files__read" [("path", JStr "/tmp/x")]
           "files" "read" 1);
    reflexivity.
Defined.

Lemma C9_dispatch_unknown_witness :
  (str_contains SEPARATOR "fetch" = false ->
     handle_call_tool demo_call_tool demo_search_ok demo_send demo_format
       demo_state tt "fetch" []
     = (Ok [TextContent ("Unknown tool: " ++ "fetch")], demo_state, [])) /\
  (forall server_name original_name,
     parse_prefixed_name "fetch" = Ok (server_name, original_name) ->
     dict_get (sessions (upstream demo_state)) server_name = None ->
     handle_call_tool demo_call_tool demo_search_ok demo_send demo_format
       demo_state tt "fetch" []
     = (Ok [TextContent ("No upstream server: " ++ server_name)], demo_state, [])).
Proof.
  apply (C9_dispatch_unknown demo_call_tool demo_search_ok demo_send demo_format
           demo_state tt "fetch" []).
  discriminate.
Defined.

(** The stale identifier of [web] reaches the no-session branch. *)
Example dispatch_web_fetch :
  handle_call_tool demo_call_tool demo_search_ok demo_send demo_format
    demo_state tt "web__fetch" []
  = (Ok [TextContent "No upstream server: web"], demo_state, []).
Proof. reflexivity. Qed.

(* ================================================================== *)
(** * Further properties of the code *)

(* ------------------------------------------------------------------ *)
(** ** The name codec, read from the decoding side *)

Lemma strip_prefix_app (p s r : string) :
  strip_prefix p s = Some r -> s = p ++ r.
Proof.
  revert s. induction p as [|a p IH]; intros s H; simpl in H.
  - injection H as ->. reflexivity.
  - destruct s as [|b s]; [discriminate|].
    destruct (Ascii.eqb a b) eqn:E; [|discriminate].
    apply Ascii.eqb_eq in E; subst b. simpl. f_equal. apply IH, H.
Qed.

Lemma strip_prefix_self (p r : string) : strip_prefix p (p ++ r) = Some r.
Proof.
  induction p as [|a p IH]; simpl; [reflexivity|].
  rewrite Ascii.eqb_refl. exact IH.
Qed.

Lemma split_first_app (sep s a b : string) :
  split_first sep s = Some (a, b) -> s = a ++ sep ++ b.
Proof.
  revert a b. induction s as [|c s IH]; intros a b H; cbn [split_first] in H.
  - destruct (strip_prefix sep "") as [r|] eqn:E; [|discriminate].
    injection H as <- <-. exact (strip_prefix_app _ _ _ E).
  - destruct (strip_prefix sep (String c s)) as [r|] eqn:E.
    + injection H as <- <-. exact (strip_prefix_app _ _ _ E).
    + destruct (split_first sep s) as [[a' b']|] eqn:Es; [|discriminate].
      injection H as <- <-. simpl. f_equal. apply IH. reflexivity.
Qed.

Lemma split_first_contains (s : string) :
  str_contains SEPARATOR s = true -> exists a b, split_first SEPARATOR s = Some (a, b).
Proof.
  induction s as [|c s IH]; intros H; [discriminate|].
  cbn [split_first]. cbn [str_contains] in H.
  destruct (strip_prefix SEPARATOR (String c s)) as [r|]; [eauto|].
  destruct (IH H) as [a [b E]]. rewrite E. eauto.
Qed.

(** X1: decoding fails, with a [ValueError] naming the identifier,
    exactly when the identifier has no ["__"]. *)
Theorem parse_prefixed_name_fails_iff (prefixed : string) :
  parse_prefixed_name prefixed
    = Raise (ValueError ("Invalid prefixed tool name: " ++ prefixed))
  <-> str_contains SEPARATOR prefixed = false.
Proof.
  unfold parse_prefixed_name, py_split_max1. split.
  - intros H. destruct (str_contains SEPARATOR prefixed) eqn:Ec; [|reflexivity].
    destruct (split_first_contains _ Ec) as [a [b E]]. rewrite E in H. discriminate.
  - intros H. rewrite (split_first_no_sep _ H). reflexivity.
Qed.

(** X2: encoding a decoded identifier gives the identifier back. *)
Theorem prefix_parse_roundtrip (prefixed server_name tool_name : string) :
  parse_prefixed_name prefixed = Ok (server_name, tool_name) ->
  prefix_tool_name server_name tool_name = prefixed.
Proof.
  unfold parse_prefixed_name, py_split_max1.
  destruct (split_first SEPARATOR prefixed) as [[a b]|] eqn:E; [|discriminate].
  intros H. injection H as <- <-. symmetry. exact (split_first_app _ _ _ _ E).
Qed.

Lemma prefix_parse_roundtrip_witness :
  prefix_tool_name "a" "_b" = "a___b".
Proof.
  apply prefix_parse_roundtrip. reflexivity.
Defined.

(** X3: the origin part of a decoded identifier never contains ["__"]:
    the cut is at the first separator. *)
Theorem parse_origin_has_no_separator (prefixed server_name tool_name : string) :
  parse_prefixed_name prefixed = Ok (server_name, tool_name) ->
  str_contains SEPARATOR server_name = false.
Proof.
  unfold parse_prefixed_name, py_split_max1.
  destruct (split_first SEPARATOR prefixed) as [[a b]|] eqn:E; [|discriminate].
  intros H. injection H as <- _.
  revert a b E. induction prefixed as [|c s IH]; intros a b E.
  - discriminate E.
  - cbn [split_first] in E.
    destruct (strip_prefix SEPARATOR (String c s)) as [r|] eqn:Es.
    + injection E as <- _. reflexivity.
    + destruct (split_first SEPARATOR s) as [[a' b']|] eqn:E'; [|discriminate].
      injection E as <- <-.
      specialize (IH a' b' eq_refl).
      cbn [str_contains]. rewrite IH.
      destruct (strip_prefix SEPARATOR (String c a')) as [r|] eqn:Ea; [|reflexivity].
      exfalso.
      apply split_first_app in E'. subst s.
      apply strip_prefix_app in Ea.
      unfold SEPARATOR in Ea, Es. cbn in Ea.
      injection Ea as -> Ea'.
      destruct a' as [|c' a'']; [discriminate|].
      injection Ea' as -> _.
      cbn in Es. discriminate Es.
Qed.

Lemma parse_origin_has_no_separator_witness :
  str_contains SEPARATOR "a" = false.
Proof.
  apply (parse_origin_has_no_separator "a___b" "a" "_b"). reflexivity.
Defined.

(* ------------------------------------------------------------------ *)
(** ** The text of a tool *)

Lemma str_append_nil_r (s : string) : s ++ "" = s.
Proof. induction s as [|c s IH]; simpl; [reflexivity|]. rewrite IH. reflexivity. Qed.

Lemma str_append_assoc (x y z : string) : (x ++ y) ++ z = x ++ y ++ z.
Proof. induction x as [|c x IH]; simpl; [reflexivity|]. rewrite IH. reflexivity. Qed.

Lemma str_contains_underscore_cons (c : ascii) (r : string) :
  str_contains "_" (String c r) = Ascii.eqb "_" c || str_contains "_" r.
Proof.
  cbn [str_contains strip_prefix]. destruct (Ascii.eqb "_" c); reflexivity.
Qed.

Lemma replace_underscore_clears (fuel : nat) (s : string) :
  String.length s <= fuel -> str_contains "_" (replace_aux fuel "_" " " s) = false.
Proof.
  revert s. induction fuel as [|f IH]; intros s Hs.
  - destruct s; [reflexivity|simpl in Hs; lia].
  - destruct s as [|c s]; [reflexivity|].
    simpl in Hs. cbn [replace_aux strip_prefix].
    destruct (Ascii.eqb "_" c) eqn:Ec.
    + cbn [append]. rewrite str_contains_underscore_cons, IH by lia. reflexivity.
    + rewrite str_contains_underscore_cons, Ec, IH by lia. reflexivity.
Qed.

(** X4: the word-segmented tool name has no underscore left, whatever
    the name (in particular the ["__"] of a prefixed name is gone). *)
Theorem segment_name_no_underscore (name : string) :
  str_contains "_" (segment_name name) = false.
Proof.
  unfold segment_name, py_replace. apply replace_underscore_clears. lia.
Qed.

Example segment_name_prefixed : segment_name "files__read_file" = "files read file".
Proof. reflexivity. Qed.

(** X5: [tool_to_text] raises exactly when the input schema has a
    ["properties"] entry that is not a dict. *)
Theorem tool_to_text_raises_iff (str_other : json -> string) (tool : Tool) :
  is_raise (tool_to_text str_other tool) = true <->
  exists v, dict_get (tool_inputSchema tool) "properties" = Some v /\
            forall kvs, v <> JObj kvs.
Proof.
  unfold tool_to_text, dict_get_default.
  destruct (dict_get (tool_inputSchema tool) "properties") as [v|] eqn:E.
  - destruct v; cbn; split; intros H; try reflexivity;
      try (eexists; split; [reflexivity|]; intros kvs' Hk; discriminate Hk);
      try discriminate H.
    destruct H as [v [Hv Hne]]. injection Hv as <-. exfalso. exact (Hne kvs eq_refl).
  - cbn. split; [discriminate|]. intros [v [Hv _]]. discriminate Hv.
Qed.

Lemma str_contains_of_strip (sub s r : string) :
  strip_prefix sub s = Some r -> str_contains sub s = true.
Proof. intros H. destruct s; simpl; rewrite H; reflexivity. Qed.

Lemma str_contains_app_r (sub x y : string) :
  str_contains sub y = true -> str_contains sub (x ++ y) = true.
Proof.
  intros H. induction x as [|c x IH]; [exact H|].
  simpl. destruct (strip_prefix sub (String c (x ++ y))); [reflexivity|exact IH].
Qed.

Lemma str_contains_middle (sub x y : string) : str_contains sub (x ++ sub ++ y) = true.
Proof.
  apply str_contains_app_r. apply (str_contains_of_strip _ _ y). apply strip_prefix_self.
Qed.

Lemma str_join_in (sep p : string) (ps : list string) :
  In p ps -> exists x y, str_join sep ps = x ++ p ++ y.
Proof.
  induction ps as [|p0 ps IH]; intros Hin; [destruct Hin|].
  destruct Hin as [<-|Hin].
  - destruct ps as [|p1 ps].
    + exists "", "". simpl. rewrite str_append_nil_r. reflexivity.
    + exists "". eexists. reflexivity.
  - destruct (IH Hin) as [x [y E]].
    destruct ps as [|p1 ps]; [destruct Hin|].
    exists (p0 ++ sep ++ x), y.
    change (str_join sep (p0 :: p1 :: ps)) with (p0 ++ sep ++ str_join sep (p1 :: ps)).
    rewrite E, !str_append_assoc. reflexivity.
Qed.

Lemma str_join_head (sep p : string) (ps : list string) :
  exists rest, strip_prefix p (str_join sep (p :: ps)) = Some rest.
Proof.
  destruct ps as [|p1 ps].
  - exists "". cbn [str_join]. rewrite <- (str_append_nil_r p) at 2. apply strip_prefix_self.
  - eexists. apply strip_prefix_self.
Qed.

(** X6: the text of a tool starts with its segmented name and contains
    its (non-empty) description and the segmented name of every schema
    parameter. *)
Theorem tool_to_text_mentions (str_other : json -> string) (tool : Tool) (text : string) :
  tool_to_text str_other tool = Ok text ->
  (exists rest, strip_prefix (segment_name (tool_name tool)) text = Some rest) /\
  (forall d, tool_description tool = Some d -> d <> "" -> str_contains d text = true) /\
  (forall props, dict_get_default (tool_inputSchema tool) "properties" (JObj []) = JObj props ->
     forall param_name param_info, In (param_name, param_info) props ->
       str_contains (py_replace "_" " " param_name) text = true).
Proof.
  unfold tool_to_text.
  set (desc := match tool_description tool with
               | Some d => if String.eqb d "" then [] else [d]
               | None => []
               end).
  destruct (dict_get_default (tool_inputSchema tool) "properties" (JObj [])) as
    [| | | | |props] eqn:Ep; try discriminate.
  set (parts := ((segment_name (tool_name tool) :: desc)
                 ++ map (param_text str_other) props)%list).
  intros H. assert (Ht : text = str_join " " parts) by congruence.
  rewrite Ht. clear H Ht.
  split; [|split].
  - exact (str_join_head " " (segment_name (tool_name tool))
             (desc ++ map (param_text str_other) props)%list).
  - intros d Hd Hne.
    assert (Hin : In d parts).
    { apply in_or_app. left. right. unfold desc. rewrite Hd.
      apply String.eqb_neq in Hne. rewrite Hne. left. reflexivity. }
    destruct (str_join_in " " _ _ Hin) as [x [y E]]. rewrite E. apply str_contains_middle.
  - intros props' Hp param_name param_info Hin.
    injection Hp as <-.
    assert (Hin' : In (param_text str_other (param_name, param_info)) parts).
    { apply in_or_app. right. apply (in_map (param_text str_other)) in Hin. exact Hin. }
    destruct (str_join_in " " _ _ Hin') as [x [y E]]. rewrite E.
    cbn [param_text]. rewrite !str_append_assoc. apply str_contains_middle.
Qed.

Definition demo_read_tool : Tool :=
  mkTool "files__read_file" (Some "read a file from disk")
    [("type", JStr "object");
     ("properties", JObj [("file_path", JObj [("description", JStr "absolute path")])])].

Lemma tool_to_text_mentions_witness :
  (exists rest, strip_prefix "files read file"
                  "files read file read a file from disk file path: absolute path" = Some rest) /\
  str_contains "read a file from disk"
    "files read file read a file from disk file path: absolute path" = true.
Proof.
  destruct (tool_to_text_mentions (fun _ => "") demo_read_tool
              "files read file read a file from disk file path: absolute path" eq_refl)
    as [H1 [H2 _]].
  split; [exact H1|]. apply H2; [reflexivity|discriminate].
Defined.

(* ------------------------------------------------------------------ *)
(** ** Loading the configuration *)

Lemma load_servers_not_config_error (entries : list (string * json))
  (acc : list (string * ServerConfigV)) :
  load_servers entries acc
  <> Raise (ValueError "Config must contain a non-empty 'mcpServers' object").
Proof.
  revert acc. induction entries as [|[name entry] entries IH]; intros acc; simpl.
  - discriminate.
  - destruct (has_command entry) as [[|]|e] eqn:Eh.
    + destruct (make_server_config entry) as [sc|e] eqn:Em; [apply IH|].
      destruct entry; simpl in Em; try discriminate Em; injection Em as <-; discriminate.
    + intros H. injection H as H. discriminate H.
    + destruct entry; simpl in Eh; try discriminate Eh; injection Eh as <-; discriminate.
Qed.

(** X7: a missing file raises ["Config file not found: <path>"]; for an
    existing file holding a dict, the [ValueError] about ["mcpServers"]
    is raised exactly when that key is absent, empty or not a dict. *)
Theorem load_config_errors (path : string) (raw : json) :
  load_config path false raw = Raise (Exception ("Config file not found: " ++ path)) /\
  forall kvs, raw = JObj kvs ->
    (load_config path true raw
       = Raise (ValueError "Config must contain a non-empty 'mcpServers' object")
     <-> forall e es, dict_get kvs "mcpServers" <> Some (JObj (e :: es))).
Proof.
  split; [reflexivity|]. intros kvs ->. unfold load_config, dict_get_default. cbn [negb].
  destruct (dict_get kvs "mcpServers") as [v|] eqn:E.
  - destruct v as [| | | | |[|e es]]; split; intros H; try reflexivity;
      try (intros e' es' He'; discriminate He').
    + destruct (load_servers (e :: es) []) eqn:El; [discriminate|].
      injection H as ->. exfalso. exact (load_servers_not_config_error _ _ El).
    + exfalso. exact (H e es eq_refl).
  - split; [intros _ e' es' He'; discriminate He'|reflexivity].
Qed.

Lemma dict_set_fresh {V} (d : list (string * V)) (k : string) (v : V) :
  dict_get d k = None -> dict_set d k v = (d ++ [(k, v)])%list.
Proof.
  induction d as [|[k' v'] d IH]; simpl; intros H; [reflexivity|].
  destruct (String.eqb k k') eqn:E; [discriminate|]. rewrite IH by exact H. reflexivity.
Qed.

Lemma dict_get_app {V} (d1 d2 : list (string * V)) (k : string) :
  dict_get (d1 ++ d2) k = match dict_get d1 k with Some v => Some v | None => dict_get d2 k end.
Proof.
  induction d1 as [|[k' v'] d1 IH]; simpl; [reflexivity|].
  destruct (String.eqb k k'); [reflexivity|exact IH].
Qed.

Lemma load_servers_get_other (entries : list (string * json))
  (acc servers : list (string * ServerConfigV)) (k : string) :
  load_servers entries acc = Ok servers -> ~ In k (map fst entries) ->
  dict_get servers k = dict_get acc k.
Proof.
  revert acc. induction entries as [|[name entry] entries IH]; intros acc H Hk; simpl in H.
  - injection H as ->. reflexivity.
  - destruct (has_command entry) as [[|]|e]; try discriminate.
    destruct (make_server_config entry) as [sc|e]; [|discriminate].
    rewrite (IH _ H) by (intros Hin; apply Hk; right; exact Hin).
    rewrite dict_get_set. destruct (String.eqb k name) eqn:E; [|reflexivity].
    apply String.eqb_eq in E. subst k. exfalso. apply Hk. left. reflexivity.
Qed.

Lemma load_servers_ok (entries : list (string * json))
  (acc servers : list (string * ServerConfigV)) :
  load_servers entries acc = Ok servers ->
  NoDup (map fst entries) ->
  (forall n, In n (map fst entries) -> dict_get acc n = None) ->
  map fst servers = (map fst acc ++ map fst entries)%list /\
  forall n e, In (n, e) entries ->
    exists sc, has_command e = Ok true /\ make_server_config e = Ok sc /\
               dict_get servers n = Some sc.
Proof.
  revert acc. induction entries as [|[name entry] entries IH]; intros acc H Hnd Hfresh;
    simpl in H.
  - injection H as <-. rewrite app_nil_r. split; [reflexivity|]. intros n e [].
  - destruct (has_command entry) as [[|]|e] eqn:Eh; try discriminate.
    destruct (make_server_config entry) as [sc|e] eqn:Em; [|discriminate].
    inversion Hnd as [|x l Hnotin Hnd']; subst.
    rewrite dict_set_fresh in H by (apply Hfresh; left; reflexivity).
    destruct (IH _ H Hnd') as [Hkeys Hall].
    { intros n Hn. rewrite dict_get_app.
      rewrite (Hfresh n (or_intror Hn)). simpl.
      destruct (String.eqb n name) eqn:E; [|reflexivity].
      apply String.eqb_eq in E. subst n. contradiction. }
    split.
    + rewrite Hkeys, map_app, <- app_assoc. reflexivity.
    + intros n e [Eq|Hin].
      * injection Eq as <- <-. exists sc. split; [exact Eh|]. split; [exact Em|].
        rewrite (load_servers_get_other _ _ _ _ H Hnotin), dict_get_app.
        rewrite (Hfresh name (or_introl eq_refl)). simpl. rewrite String.eqb_refl. reflexivity.
      * exact (Hall n e Hin).
Qed.

(** X8: a loaded configuration has one server per entry of
    ["mcpServers"], non-empty and in the file's order; each entry had a
    ["command"] and its server is the one [ServerConfig] built from it. *)
Theorem load_config_servers (path : string) (kvs entries : list (string * json))
  (cfg : SmartMCPConfigV) :
  dict_get kvs "mcpServers" = Some (JObj entries) ->
  NoDup (map fst entries) ->
  load_config path true (JObj kvs) = Ok cfg ->
  entries <> [] /\
  map fst (v_servers cfg) = map fst entries /\
  forall n e, In (n, e) entries ->
    exists sc, has_command e = Ok true /\ make_server_config e = Ok sc /\
               dict_get (v_servers cfg) n = Some sc.
Proof.
  intros He Hnd H. unfold load_config, dict_get_default in H. rewrite He in H.
  cbn [negb] in H.
  destruct entries as [|e0 es]; [discriminate|].
  destruct (load_servers (e0 :: es) []) as [servers|exc] eqn:El; [|discriminate].
  injection H as <-. cbn [v_servers].
  destruct (load_servers_ok _ _ _ El Hnd (fun _ _ => eq_refl)) as [Hk Hall].
  split; [discriminate|]. split; [exact Hk|exact Hall].
Qed.

Definition demo_raw_config : json :=
  JObj [("mcpServers",
         JObj [("files", JObj [("command", JStr "npx"); ("args", JArr [JStr "fs-server"])]);
               ("web", JObj [("command", JStr "uvx")])]);
        ("top_k", JNum 3)].

Lemma load_config_servers_witness :
  exists cfg, load_config "smartmcp.json" true demo_raw_config = Ok cfg /\
              map fst (v_servers cfg) = ["files"; "web"].
Proof.
  set (cfg := mkSmartMCPConfigV
                [("files", mkServerConfigV (JStr "npx") (JArr [JStr "fs-server"]) (JObj []));
                 ("web", mkServerConfigV (JStr "uvx") (JArr []) (JObj []))]
                (JNum 3) (JStr "all-MiniLM-L6-v2")).
  exists cfg. split; [reflexivity|].
  destruct (load_config_servers "smartmcp.json"
              [("mcpServers",
                JObj [("files", JObj [("command", JStr "npx"); ("args", JArr [JStr "fs-server"])]);
                      ("web", JObj [("command", JStr "uvx")])]);
               ("top_k", JNum 3)]
              [("files", JObj [("command", JStr "npx"); ("args", JArr [JStr "fs-server"])]);
               ("web", JObj [("command", JStr "uvx")])]
              cfg eq_refl) as [_ [Hk _]].
  - repeat constructor; simpl; intuition discriminate.
  - reflexivity.
  - exact Hk.
Defined.

Lemma load_servers_objects (entries : list (string * json))
  (acc : list (string * ServerConfigV)) :
  Forall (fun '(_, e) => exists ekvs, e = JObj ekvs) entries ->
  is_raise (load_servers entries acc) = false <->
  Forall (fun '(_, e) => exists ekvs c, e = JObj ekvs /\ dict_get ekvs "command" = Some c)
         entries.
Proof.
  revert acc. induction entries as [|[name entry] entries IH]; intros acc Hobj.
  - simpl. split; intros _; [constructor|reflexivity].
  - inversion Hobj as [|x l Hx Hobj']; subst. destruct Hx as [ekvs ->].
    simpl. destruct (dict_get ekvs "command") as [c|] eqn:Ec.
    + rewrite (IH _ Hobj'). split.
      * intros H. constructor; [exists ekvs, c; split; [reflexivity|exact Ec]|exact H].
      * intros H. inversion H; assumption.
    + split; [discriminate|].
      intros H. inversion H as [|x l Hx _]; subst. destruct Hx as [ekvs' [c [Eq Hc]]].
      injection Eq as <-. rewrite Ec in Hc. discriminate.
Qed.

(** X9: when every entry of ["mcpServers"] is a dict, loading succeeds
    exactly when every entry has a ["command"]. *)
Theorem load_config_command_required (path : string) (kvs entries : list (string * json)) :
  dict_get kvs "mcpServers" = Some (JObj entries) ->
  entries <> [] ->
  Forall (fun '(_, e) => exists ekvs, e = JObj ekvs) entries ->
  is_raise (load_config path true (JObj kvs)) = false <->
  Forall (fun '(_, e) => exists ekvs c, e = JObj ekvs /\ dict_get ekvs "command" = Some c)
         entries.
Proof.
  intros He Hne Hobj. unfold load_config, dict_get_default. rewrite He. cbn [negb].
  destruct entries as [|e0 es]; [contradiction|].
  rewrite <- (load_servers_objects _ [] Hobj).
  destruct (load_servers (e0 :: es) []); reflexivity.
Qed.

Lemma load_config_command_required_witness :
  is_raise (load_config "smartmcp.json" true
              (JObj [("mcpServers", JObj [("files", JObj [("args", JArr [])])])])) = true.
Proof.
  destruct (is_raise (load_config "smartmcp.json" true
              (JObj [("mcpServers", JObj [("files", JObj [("args", JArr [])])])]))) eqn:E;
    [reflexivity|].
  apply (load_config_command_required "smartmcp.json"
           [("mcpServers", JObj [("files", JObj [("args", JArr [])])])]
           [("files", JObj [("args", JArr [])])] eq_refl) in E.
  - inversion E as [|x l Hx _]. cbv beta iota in Hx.
    destruct Hx as [ekvs [c [Eq Hc]]]. injection Eq as <-. discriminate Hc.
  - discriminate.
  - repeat constructor. eexists. reflexivity.
Defined.

(* ------------------------------------------------------------------ *)
(** ** Connecting and collecting, further *)

Lemma nodup_keys_unique {A B} (l : list (A * B)) (k : A) (v v' : B) :
  NoDup (map fst l) -> In (k, v) l -> In (k, v') l -> v = v'.
Proof.
  induction l as [|[k0 v0] l IH]; intros Hnd Hin Hin'; [destruct Hin|].
  inversion Hnd as [|x l' Hnotin Hnd']; subst.
  destruct Hin as [Eq|Hin]; destruct Hin' as [Eq'|Hin'].
  - congruence.
  - exfalso. apply Hnotin. apply (in_map fst) in Hin'. simpl in Hin'. congruence.
  - exfalso. apply Hnotin. apply (in_map fst) in Hin. simpl in Hin. congruence.
  - exact (IH Hnd' Hin Hin').
Qed.

Lemma in_failed_names {Session} (connect : string -> ServerConfig -> Result Session)
  (srvs : list (string * ServerConfig)) (n : string) :
  In n (failed_names connect srvs) <->
  exists server_cfg, In (n, server_cfg) srvs /\ is_raise (connect n server_cfg) = true.
Proof.
  unfold failed_names. rewrite in_map_iff. split.
  - intros [[n' c] [<- Hin]]. apply filter_In in Hin as [Hin Hr]. exists c. split; assumption.
  - intros [c [Hin Hr]]. exists (n, c). split; [reflexivity|]. apply filter_In. split; assumption.
Qed.

(** X10: with distinct server names and a fresh manager, when
    [connect_all] returns a failure list, the names in it are exactly the
    configured names left without a session. *)
Theorem connect_all_failed_partition {Session} (connect : string -> ServerConfig -> Result Session)
  (cfg : SmartMCPConfig) :
  NoDup (map fst (servers cfg)) ->
  let '(r, mgr, _) := connect_all connect (mkUpstreamManager []) cfg in
  forall failed, r = Ok failed ->
  forall n, In n failed <->
            In n (map fst (servers cfg)) /\ dict_get (sessions mgr) n = None.
Proof.
  intros Hnd. unfold connect_all. cbn [sessions].
  pose proof (connect_loop_spec connect (servers cfg) [] []) as H.
  destruct (connect_loop connect (servers cfg) [] []) as [[ss failed] ev].
  destruct H as [Hf [_ Hd]]. cbn [app] in Hf. subst failed.
  assert (Hiff : forall n, In n (failed_names connect (servers cfg)) <->
                           In n (map fst (servers cfg)) /\ dict_get ss n = None).
  { intros n. rewrite in_failed_names. split.
    - intros [c [Hin Hr]]. split; [apply (in_map fst) in Hin; exact Hin|].
      destruct (dict_get ss n) as [s|] eqn:Eg; [|reflexivity]. exfalso.
      assert (Hne : dict_get ss n <> None) by congruence.
      apply Hd in Hne as [Hnil|[c' [s' [Hin' Hc']]]]; [apply Hnil; reflexivity|].
      rewrite (nodup_keys_unique _ _ _ _ Hnd Hin Hin') in Hr. rewrite Hc' in Hr. discriminate.
    - intros [Hin Hg]. apply in_map_iff in Hin as [[n' c] [En Hin]]. simpl in En. subst n'.
      exists c. split; [exact Hin|].
      destruct (connect n c) as [s|e] eqn:Ec; [|reflexivity]. exfalso.
      apply (proj2 (Hd n)); [|exact Hg]. right. exists c, s. split; assumption. }
  destruct ss as [|p ss]; intros failed' Hr; [discriminate Hr|].
  injection Hr as <-. exact Hiff.
Qed.

Lemma connect_all_failed_partition_witness :
  In "db" ["db"] <->
  In "db" (map fst (servers demo_config)) /\
  dict_get [("files", 5); ("web", 3)] "db" = None.
Proof.
  pose proof (connect_all_failed_partition demo_connect demo_config) as H.
  assert (Hnd : NoDup (map fst (servers demo_config))).
  { repeat constructor; simpl; intuition discriminate. }
  specialize (H Hnd). simpl in H. exact (H ["db"] eq_refl "db").
Defined.

(** X11: when every session lists its tools, [collect_tools] returns, in
    session order, each session's tools in their listed order, renamed
    with the session's prefix, and logs one line per session. *)
Theorem collect_tools_all_listed {Session} (list_tools : Session -> Result (list Tool))
  (listing : Session -> list Tool) (ss : list (string * Session)) :
  (forall name s, In (name, s) ss -> list_tools s = Ok (listing s)) ->
  fst (collect_tools list_tools (mkUpstreamManager ss))
    = Ok (flat_map (fun '(name, s) => prefix_tools name (listing s)) ss) /\
  length (snd (collect_tools list_tools (mkUpstreamManager ss))) = length ss.
Proof.
  unfold collect_tools. cbn [sessions].
  induction ss as [|[name s] ss IH]; intros H; [split; reflexivity|].
  simpl. rewrite (H name s (or_introl eq_refl)).
  destruct IH as [IH1 IH2]; [intros n s' Hin; apply (H n); right; exact Hin|].
  destruct (collect_loop list_tools ss) as [r ev]. simpl in IH1, IH2 |- *.
  rewrite IH1, IH2. split; reflexivity.
Qed.

Lemma collect_tools_all_listed_witness :
  fst (collect_tools demo_list_tools (mkUpstreamManager [("web", 2); ("search", 3)]))
  = Ok [("web", mkTool "web__fetch" (Some "fetch a URL") []);
        ("search", mkTool "search__fetch" (Some "fetch a URL") [])].
Proof.
  apply (collect_tools_all_listed demo_list_tools (fun _ => [mkTool "fetch" (Some "fetch a URL") []])).
  intros name s [Eq|[Eq|[]]]; injection Eq as _ <-; reflexivity.
Defined.

(** X12: every record [collect_tools] returns comes from a tool listed by
    the session of its origin, with the description and schema copied;
    when the origin has no ["__"] and does not end in ["_"], the record's
    name decodes back to that origin and the listed tool's name. *)
Theorem collect_tools_records {Session} (list_tools : Session -> Result (list Tool))
  (ss : list (string * Session)) (recs : list (string * Tool)) :
  fst (collect_tools list_tools (mkUpstreamManager ss)) = Ok recs ->
  forall origin t, In (origin, t) recs ->
    exists s tools tool,
      In (origin, s) ss /\ list_tools s = Ok tools /\ In tool tools /\
      t = mkTool (prefix_tool_name origin (tool_name tool))
                 (tool_description tool) (tool_inputSchema tool) /\
      (valid_origin origin = true ->
       parse_prefixed_name (tool_name t) = Ok (origin, tool_name tool)).
Proof.
  unfold collect_tools. cbn [sessions]. revert recs.
  induction ss as [|[name s] ss IH]; intros recs H origin t Hin.
  - simpl in H. injection H as <-. destruct Hin.
  - simpl in H. destruct (list_tools s) as [tools|e] eqn:El; [|discriminate].
    destruct (collect_loop list_tools ss) as [[recs'|e] ev] eqn:Ec; simpl in H;
      [|discriminate].
    injection H as <-. apply in_app_or in Hin as [Hin|Hin].
    + unfold prefix_tools in Hin. apply in_map_iff in Hin as [tool [Eq Hin]].
      injection Eq as <- <-.
      exists s, tools, tool. split; [left; reflexivity|]. split; [exact El|].
      split; [exact Hin|]. split; [reflexivity|].
      intros Hv. cbn [tool_name]. unfold valid_origin in Hv.
      apply andb_prop in Hv as [Ha Hb]. apply negb_true_iff in Ha, Hb.
      exact (parse_prefix_tool_name _ _ Ha Hb).
    + destruct (IH recs' eq_refl origin t Hin) as [s' [tools' [tool' [H1 H2]]]].
      exists s', tools', tool'. split; [right; exact H1|exact H2].
Qed.

Lemma collect_tools_records_witness :
  exists s tools tool,
    In ("web", s) [("web", 2)] /\ demo_list_tools s = Ok tools /\ In tool tools /\
    mkTool "web__fetch" (Some "fetch a URL") []
      = mkTool (prefix_tool_name "web" (tool_name tool))
               (tool_description tool) (tool_inputSchema tool) /\
    (valid_origin "web" = true ->
     parse_prefixed_name (tool_name (mkTool "web__fetch" (Some "fetch a URL") []))
       = Ok ("web", tool_name tool)).
Proof.
  apply (collect_tools_records demo_list_tools [("web", 2)]
           [("web", mkTool "web__fetch" (Some "fetch a URL") [])]); [reflexivity|].
  left. reflexivity.
Defined.

(* ------------------------------------------------------------------ *)
(** ** Startup *)

Lemma dict_get_in {V} (d : list (string * V)) (k : string) (v : V) :
  dict_get d k = Some v -> In (k, v) d.
Proof.
  induction d as [|[k' v'] d IH]; simpl; [discriminate|].
  destruct (String.eqb k k') eqn:E.
  - apply String.eqb_eq in E. intros H. injection H as <-. subst. left. reflexivity.
  - intros H. right. exact (IH H).
Qed.

Lemma connect_loop_other {Session} (connect : string -> ServerConfig -> Result Session)
  (srvs : list (string * ServerConfig)) (k : string) :
  ~ In k (map fst srvs) ->
  forall ss failed,
    dict_get (fst (fst (connect_loop connect srvs ss failed))) k = dict_get ss k.
Proof.
  induction srvs as [|[name c] srvs IH]; intros Hk ss failed; [reflexivity|].
  simpl in Hk. simpl.
  assert (Hk' : ~ In k (map fst srvs)) by tauto.
  destruct (connect name c) as [s|e].
  - specialize (IH Hk' (dict_set ss name s) failed).
    destruct (connect_loop connect srvs (dict_set ss name s) failed) as [[ss' f'] ev].
    simpl in IH |- *. rewrite IH, dict_get_set.
    destruct (String.eqb k name) eqn:E; [|reflexivity].
    apply String.eqb_eq in E. subst. exfalso. tauto.
  - specialize (IH Hk' ss (failed ++ [name])%list).
    destruct (connect_loop connect srvs ss (failed ++ [name])%list) as [[ss' f'] ev].
    exact IH.
Qed.

Lemma connect_loop_get {Session} (connect : string -> ServerConfig -> Result Session)
  (srvs : list (string * ServerConfig)) (n : string) (c : ServerConfig) (s : Session) :
  NoDup (map fst srvs) -> In (n, c) srvs -> connect n c = Ok s ->
  forall ss failed,
    dict_get (fst (fst (connect_loop connect srvs ss failed))) n = Some s.
Proof.
  induction srvs as [|[name c0] srvs IH]; intros Hnd Hin Hc ss failed; [destruct Hin|].
  inversion Hnd as [|x l Hnotin Hnd']; subst.
  destruct Hin as [Eq|Hin].
  - injection Eq as -> ->. simpl. rewrite Hc.
    pose proof (connect_loop_other connect srvs n Hnotin (dict_set ss n s) failed) as Ho.
    destruct (connect_loop connect srvs (dict_set ss n s) failed) as [[ss' f'] ev].
    simpl in Ho |- *. rewrite Ho, dict_get_set, String.eqb_refl. reflexivity.
  - specialize (IH Hnd' Hin Hc). simpl.
    destruct (connect name c0) as [s0|e].
    + specialize (IH (dict_set ss name s0) failed).
      destruct (connect_loop connect srvs (dict_set ss name s0) failed) as [[ss' f'] ev].
      exact IH.
    + specialize (IH ss (failed ++ [name])%list).
      destruct (connect_loop connect srvs ss (failed ++ [name])%list) as [[ss' f'] ev].
      exact IH.
Qed.

(** X13: when startup succeeds, the state has at least one session, its
    catalog is what [collect_tools] returns on those sessions, the index is
    built over exactly the catalog's tools in catalog order, the embedding
    model was loaded, the configuration is kept, no tool is active yet (the
    client sees only [search_tools]), and a search on the index never
    raises. *)
Theorem lifespan_start_ready {Session Vec : Type}
  (connect : string -> ServerConfig -> Result Session)
  (list_tools : Session -> Result (list Tool)) (load_model : string -> Result unit)
  (embed_tool : Tool -> Vec) (cfg : SmartMCPConfig)
  (st : SmartMCPState Session (EmbeddingIndex Vec)) (ev : list Event) :
  lifespan_start connect list_tools load_model embed_tool cfg = (Ok st, ev) ->
  sessions (upstream st) <> [] /\
  fst (collect_tools list_tools (upstream st)) = Ok (all_tools st) /\
  _tools (index st) = map snd (all_tools st) /\
  _index (index st) = Some (map embed_tool (map snd (all_tools st))) /\
  load_model (embedding_model cfg) = Ok tt /\
  config st = cfg /\
  handle_list_tools st = [SEARCH_TOOLS_SCHEMA] /\
  (forall embed_text inner query k,
     is_raise (search embed_text inner (index st) query k) = false).
Proof.
  unfold lifespan_start, connect_all.
  destruct (connect_loop connect (servers cfg) (sessions (mkUpstreamManager [])) [])
    as [[ss failed] ev0].
  destruct ss as [|p ss]; [discriminate|].
  destruct (collect_tools list_tools (mkUpstreamManager (p :: ss))) as [[recs|e] evc] eqn:Ec;
    [|discriminate].
  destruct (load_model (embedding_model cfg)) as [[]|e] eqn:El; [|discriminate].
  intros H. injection H as <- _. cbn [upstream index all_tools config active_tools].
  split; [discriminate|]. rewrite Ec.
  repeat split; reflexivity.
Qed.

(** A run with the spec's three servers ([db] fails), each other session
    listing one [fetch] tool, and tools embedded as their names. *)
Definition demo_fetch : Tool := mkTool "fetch" (Some "fetch a URL") [].

Definition demo_start : Result (SmartMCPState nat (EmbeddingIndex string)) * list Event :=
  lifespan_start demo_connect demo_list_tools (fun _ => Ok tt) tool_name demo_config.

Definition demo_started_state : SmartMCPState nat (EmbeddingIndex string) :=
  let recs := (prefix_tools "files" [demo_fetch] ++ prefix_tools "web" [demo_fetch])%list in
  mkSmartMCPState (mkUpstreamManager [("files", 5); ("web", 3)])
    (build_index tool_name EmbeddingIndex_init (map snd recs)) recs demo_config [].

Lemma lifespan_start_ready_witness :
  sessions (upstream demo_started_state) <> [] /\
  fst (collect_tools demo_list_tools (upstream demo_started_state))
    = Ok (all_tools demo_started_state) /\
  _tools (index demo_started_state) = map snd (all_tools demo_started_state) /\
  _index (index demo_started_state)
    = Some (map tool_name (map snd (all_tools demo_started_state))) /\
  (fun _ : string => Ok tt) (embedding_model demo_config) = Ok tt /\
  config demo_started_state = demo_config /\
  handle_list_tools demo_started_state = [SEARCH_TOOLS_SCHEMA] /\
  (forall embed_text inner query k,
     is_raise (search embed_text inner (index demo_started_state) query k) = false).
Proof.
  apply (lifespan_start_ready demo_connect demo_list_tools (fun _ => Ok tt) tool_name
           demo_config demo_started_state (snd demo_start)).
  vm_compute. reflexivity.
Defined.

(** X14: when no configured server connects, startup stops with the
    all-upstreams-unavailable [RuntimeError], before listing any tools or
    loading the model. *)
Theorem lifespan_start_all_fail {Session Vec : Type}
  (connect : string -> ServerConfig -> Result Session)
  (list_tools : Session -> Result (list Tool)) (load_model : string -> Result unit)
  (embed_tool : Tool -> Vec) (cfg : SmartMCPConfig) :
  (forall n c, In (n, c) (servers cfg) -> is_raise (connect n c) = true) ->
  fst (lifespan_start connect list_tools load_model embed_tool cfg)
  = Raise (RuntimeError "All upstream servers failed to connect. Cannot start smartmcp.").
Proof.
  intros Hall. unfold lifespan_start, connect_all. cbn [sessions].
  pose proof (connect_loop_spec connect (servers cfg) [] []) as H.
  destruct (connect_loop connect (servers cfg) [] []) as [[ss failed] ev0].
  destruct H as [_ [_ Hd]].
  destruct ss as [|[k v] ss]; [reflexivity|]. exfalso.
  assert (Hk : dict_get ((k, v) :: ss) k <> None) by (simpl; rewrite String.eqb_refl; discriminate).
  apply Hd in Hk as [Hnil|[c [s [Hin Hc]]]]; [apply Hnil; reflexivity|].
  specialize (Hall k c Hin). rewrite Hc in Hall. discriminate.
Qed.

Lemma lifespan_start_all_fail_witness :
  fst (lifespan_start demo_connect demo_list_tools (fun _ => Ok tt) tool_name
         (mkSmartMCPConfig [("db", mkServerConfig "db-server" [] [])] 5 "all-MiniLM-L6-v2"))
  = Raise (RuntimeError "All upstream servers failed to connect. Cannot start smartmcp.").
Proof.
  apply lifespan_start_all_fail.
  intros n c [Eq|[]]. injection Eq as <- _. reflexivity.
Defined.

(** X15: with distinct server names, one connected server whose tool
    listing raises makes the whole startup raise, however many other
    servers are fine. *)
Theorem lifespan_start_listing_fails {Session Vec : Type}
  (connect : string -> ServerConfig -> Result Session)
  (list_tools : Session -> Result (list Tool)) (load_model : string -> Result unit)
  (embed_tool : Tool -> Vec) (cfg : SmartMCPConfig)
  (n : string) (c : ServerConfig) (s : Session) :
  NoDup (map fst (servers cfg)) -> In (n, c) (servers cfg) -> connect n c = Ok s ->
  is_raise (list_tools s) = true ->
  is_raise (fst (lifespan_start connect list_tools load_model embed_tool cfg)) = true.
Proof.
  intros Hnd Hin Hc Hl. unfold lifespan_start, connect_all. cbn [sessions].
  pose proof (connect_loop_get connect (servers cfg) n c s Hnd Hin Hc [] []) as Hg.
  destruct (connect_loop connect (servers cfg) [] []) as [[ss failed] ev0].
  simpl in Hg.
  destruct ss as [|p ss]; [reflexivity|].
  pose proof (collect_tools_raises list_tools (p :: ss)
                (ex_intro _ n (ex_intro _ s (conj (dict_get_in _ _ _ Hg) Hl)))) as Hr.
  destruct (collect_tools list_tools (mkUpstreamManager (p :: ss))) as [[recs|e] evc];
    [discriminate|reflexivity].
Qed.

Lemma lifespan_start_listing_fails_witness :
  is_raise (fst (lifespan_start demo_connect demo_list_tools (fun _ => Ok tt) tool_name
                   (mkSmartMCPConfig [("a", mkServerConfig "a-server" [] []);
                                      ("web", mkServerConfig "web-server" [] [])]
                                     5 "all-MiniLM-L6-v2"))) = true.
Proof.
  apply (lifespan_start_listing_fails demo_connect demo_list_tools (fun _ => Ok tt) tool_name
           _ "a" (mkServerConfig "a-server" [] []) 1).
  - repeat constructor; simpl; intuition discriminate.
  - left. reflexivity.
  - reflexivity.
  - reflexivity.
Defined.

(* ------------------------------------------------------------------ *)
(** ** The handlers, further *)

Section HandlersMore.
Context {Session DownSession Index Score : Type}.
Variable call_tool : Session -> string -> list (string * json) -> Result (list Content).
Variable index_search : Index -> json -> json -> Result (list (Tool * Score)).
Variable send_tool_list_changed : DownSession -> Result unit.
Variable format_score : Score -> string.

Abbreviation handle := (handle_call_tool call_tool index_search send_tool_list_changed format_score).

(** X16: a discovery call whose ["query"] is missing or falsy answers
    ["Error: 'query' is required"] without searching: the state is
    unchanged and nothing is logged or sent. *)
Theorem discovery_requires_query
  (st : SmartMCPState Session Index) (session : DownSession)
  (arguments : list (string * json)) :
  truthy (dict_get_default arguments "query" (JStr "")) = false ->
  handle st session SEARCH_TOOLS_NAME arguments
  = (Ok [TextContent "Error: 'query' is required"], st, []).
Proof.
  intros Hq. unfold handle_call_tool. rewrite String.eqb_refl, Hq. reflexivity.
Qed.

(** X17: the tool-call handler never raises, whatever the upstream
    sessions, the search and the notification do; it never changes the
    sessions, the index, the catalog or the configuration; it sends at most
    one notification; and a call of any other name than the discovery tool
    leaves the state exactly as it was and sends none. *)
Theorem handle_call_tool_frame
  (st : SmartMCPState Session Index) (session : DownSession)
  (name : string) (arguments : list (string * json)) :
  let '(r, st', ev) := handle st session name arguments in
  is_raise r = false /\
  upstream st' = upstream st /\ index st' = index st /\
  all_tools st' = all_tools st /\ config st' = config st /\
  length (filter is_notification ev) <= 1 /\
  (name <> SEARCH_TOOLS_NAME -> st' = st /\ filter is_notification ev = []).
Proof.
  unfold handle_call_tool.
  destruct (String.eqb name SEARCH_TOOLS_NAME) eqn:E.
  - apply String.eqb_eq in E.
    destruct (negb (truthy (dict_get_default arguments "query" (JStr "")))).
    + repeat split; try reflexivity; try congruence; simpl; lia.
    + destruct (index_search (index st) (dict_get_default arguments "query" (JStr ""))
                  (dict_get_default arguments "top_k" (JNum (top_k (config st)))))
        as [results|exc].
      * destruct (send_tool_list_changed session) as [[]|exc];
          repeat split; try reflexivity; try congruence; simpl; lia.
      * repeat split; try reflexivity; try congruence; simpl; lia.
  - destruct (parse_prefixed_name name) as [[server_name original_name]|exc].
    + destruct (dict_get (sessions (upstream st)) server_name) as [s|].
      * destruct (call_tool s original_name arguments);
          repeat split; simpl; lia.
      * repeat split; simpl; lia.
    + repeat split; simpl; lia.
Qed.

(** X18: the encoded name of a tool of a connected server whose name has
    no ["__"] and does not end in ["_"] is dispatched to that server's
    session under the tool's own name: the content it returns is relayed,
    an exception it raises becomes an error text, and the state is
    unchanged either way. *)
Theorem dispatch_encoded_name
  (st : SmartMCPState Session Index) (session : DownSession)
  (origin tool : string) (arguments : list (string * json)) (s : Session) :
  valid_origin origin = true ->
  dict_get (sessions (upstream st)) origin = Some s ->
  handle st session (prefix_tool_name origin tool) arguments
  = let ev_proxy := Log INFO "Proxying tool call %s -> %s on %s"
                        [AStr (prefix_tool_name origin tool); AStr tool; AStr origin] in
    match call_tool s tool arguments with
    | Ok content => (Ok content, st, [ev_proxy])
    | Raise exc =>
        (Ok [TextContent ("Error calling " ++ prefix_tool_name origin tool ++ ": "
                            ++ exc_str exc)], st,
         [ev_proxy; Log ERROR "Tool call failed: %s on %s: %s"
                        [AStr tool; AStr origin; AExc exc]])
    end.
Proof.
  intros Hv Hg. unfold valid_origin in Hv.
  apply andb_prop in Hv as [Ha Hb]. apply negb_true_iff in Ha, Hb.
  pose proof (parse_prefix_tool_name origin tool Ha Hb) as Hp.
  assert (Hn : String.eqb (prefix_tool_name origin tool) SEARCH_TOOLS_NAME = false).
  { destruct (String.eqb (prefix_tool_name origin tool) SEARCH_TOOLS_NAME) eqn:E;
      [|reflexivity].
    apply String.eqb_eq in E. rewrite E in Hp. discriminate Hp. }
  unfold handle_call_tool. rewrite Hn, Hp, Hg. reflexivity.
Qed.
End HandlersMore.

(** X19: the discovery summary has a line for every result, in the form
    ["- <name> (score: <score>): <description>"], so every tool it
    activates is named in the response. *)
Theorem search_summary_lists_results {Score : Type} (format_score : Score -> string)
  (results : list (Tool * Score)) (tool : Tool) (score : Score) :
  In (tool, score) results ->
  (exists x y,
     search_summary format_score results
     = x ++ ("- " ++ tool_name tool ++ " (score: " ++ format_score score ++ "): "
               ++ opt_str (tool_description tool)) ++ y) /\
  str_contains (tool_name tool) (search_summary format_score results) = true.
Proof.
  intros Hin.
  assert (Hl : exists x y,
     search_summary format_score results
     = x ++ ("- " ++ tool_name tool ++ " (score: " ++ format_score score ++ "): "
               ++ opt_str (tool_description tool)) ++ y).
  { unfold search_summary. apply str_join_in. right.
    apply in_map_iff. exists (tool, score). split; [reflexivity|exact Hin]. }
  split; [exact Hl|].
  destruct Hl as [x [y Eq]]. rewrite Eq.
  replace (x ++ ("- " ++ tool_name tool ++ " (score: " ++ format_score score ++ "): "
                   ++ opt_str (tool_description tool)) ++ y)
    with ((x ++ "- ") ++ tool_name tool
            ++ ((" (score: " ++ format_score score ++ "): "
                   ++ opt_str (tool_description tool)) ++ y))
    by (repeat rewrite str_append_assoc; reflexivity).
  apply str_contains_middle.
Qed.

Lemma discovery_requires_query_witness :
  handle_call_tool demo_call_tool demo_search_ok demo_send demo_format
    demo_state tt SEARCH_TOOLS_NAME [("query", JStr ""); ("top_k", JNum 2)]
  = (Ok [TextContent "Error: 'query' is required"], demo_state, []).
Proof.
  apply discovery_requires_query. reflexivity.
Defined.

Lemma dispatch_encoded_name_witness :
  handle_call_tool demo_call_tool demo_search_ok demo_send demo_format
    demo_state tt (prefix_tool_name "files" "read") [("path", JStr "/tmp/x")]
  = let ev_proxy := Log INFO "Proxying tool call %s -> %s on %s"
                        [AStr (prefix_tool_name "files" "read"); AStr "read"; AStr "files"] in
    match demo_call_tool 1 "read" [("path", JStr "/tmp/x")] with
    | Ok content => (Ok content, demo_state, [ev_proxy])
    | Raise exc =>
        (Ok [TextContent ("Error calling " ++ prefix_tool_name "files" "read" ++ ": "
                            ++ exc_str exc)], demo_state,
         [ev_proxy; Log ERROR "Tool call failed: %s on %s: %s"
                        [AStr "read"; AStr "files"; AExc exc]])
    end.
Proof.
  apply (dispatch_encoded_name demo_call_tool demo_search_ok demo_send demo_format
           demo_state tt "files" "read" [("path", JStr "/tmp/x")] 1); reflexivity.
Defined.

Lemma search_summary_lists_results_witness :
  (exists x y,
     search_summary demo_format [(demo_tool, 1%Z)]
     = x ++ ("- " ++ tool_name demo_tool ++ " (score: " ++ demo_format 1%Z ++ "): "
               ++ opt_str (tool_description demo_tool)) ++ y) /\
  str_contains (tool_name demo_tool) (search_summary demo_format [(demo_tool, 1%Z)]) = true.
Proof.
  apply search_summary_lists_results. left. reflexivity.
Defined.
